(** * Rotating log writer (package log: file_rotate.go, log.go)

    A shallow embedding of the rotating file handler in a small
    state-and-panic monad over an explicit model of the operating system
    (a flat path namespace, a clock, the two standard streams), followed
    by the properties of rotation, seeding, naming and the retention
    sweep.

    Conventions of the model:
    - Go's [int] is the 64-bit signed integer; arithmetic the source
      performs on it is wrapped with [wrap64].
    - A file is known by its path.  The handler closes its descriptor
      before it renames the live file, so within one process a
      descriptor always denotes the file currently at its path, or a
      file that has been unlinked (whose bytes no path can reach; writes
      to it succeed and change nothing visible).
    - The clock is read from the world and stands still during one
      operation; the environment moves it between operations.
    - A system call fails when the world's fault fields say so.
    - The two mutexes serialise callers; the embedding is sequential and
      leaves them out. *)

From Stdlib Require Import ZArith String Ascii List Bool Lia.
From stdpp Require Import base gmap strings list.

Open Scope string_scope.
Open Scope Z_scope.

(** ** Integers *)

(** Two's-complement wrap-around of Go's 64-bit [int] and [int64]. *)
Definition wrap64 (z : Z) : Z := (z + 2 ^ 63) mod 2 ^ 64 - 2 ^ 63.

(** [len] of a Go string or byte slice. *)
Definition len (s : string) : Z := Z.of_nat (String.length s).

(** ** Errors *)

Inductive errno :=
| ENOENT | EACCES | ENOSPC | EISDIR | EXDEV | EIO | ErrClosed | ErrInvalid.

Definition errno_text (e : errno) : string :=
  match e with
  | ENOENT => "no such file or directory"
  | EACCES => "permission denied"
  | ENOSPC => "no space left on device"
  | EISDIR => "is a directory"
  | EXDEV => "invalid cross-device link"
  | EIO => "input/output error"
  | ErrClosed => "file already closed"
  | ErrInvalid => "invalid argument"
  end.

(** Go [error] values: the ones built by [errors.New] and [fmt.Errorf],
    the [*os.PathError] and [*os.LinkError] of a failed system call, a
    bare [os] error, and [filepath.SkipDir]. *)
Inductive error :=
| errors_New (msg : string)
| PathError (op path : string) (e : errno)
| LinkError (op old new : string) (e : errno)
| OsError (e : errno)
| SkipDir.

(** [err.Error()] *)
Definition Error (e : error) : string :=
  match e with
  | errors_New msg => msg
  | PathError op path c => op +:+ " " +:+ path +:+ ": " +:+ errno_text c
  | LinkError op old new c =>
      op +:+ " " +:+ old +:+ " " +:+ new +:+ ": " +:+ errno_text c
  | OsError c => errno_text c
  | SkipDir => "skip this directory"
  end.

Global Instance errno_eq_dec : EqDecision errno.
Proof. solve_decision. Defined.

Global Instance error_eq_dec : EqDecision error.
Proof. solve_decision. Defined.

(** ** Time *)

(** A reading of [time.Now()], by the three methods the source calls on
    it: [Unix()], [Day()] and [Format("2006-01-02")]. *)
Record Time := mkTime { Unix : Z; Day : Z; Format_date : string }.

(** ** Files *)

(** An entry of the path namespace. *)
Record file := mkfile { content : string; modTime : Z; isDir : bool }.

(** [os.FileInfo], by the methods the source calls. *)
Record FileInfo := mkFileInfo { Size : Z; ModTime : Z; IsDir : bool }.

Definition file_info (f : file) : FileInfo :=
  mkFileInfo (len (content f)) (modTime f) (isDir f).

(** An [*os.File] object: the path it was opened under and whether
    [Close] has been called on it. *)
Record File := mkFile { file_name : string; file_closed : bool }.

(** ** The world *)

Record World := mkWorld {
  fs : gmap string file;          (* path namespace *)
  now : Time;                     (* the clock *)
  stderr : list string;           (* what was printed to os.Stderr *)
  stdout : list string;           (* what was printed to os.Stdout *)
  Debug : bool;                   (* package variable Debug *)
  sweeps : nat;                   (* goroutines started by [go w.deleteOldLog()] *)
  fault_open : option errno;      (* os.OpenFile fails *)
  fault_fstat : option errno;     (* the Stat method of os.File fails *)
  fault_readfile : option errno;  (* ioutil.ReadFile fails *)
  fault_rename : option errno;    (* os.Rename fails *)
  fault_write : option (nat * errno); (* write stops after n bytes *)
  locked : gset string            (* paths os.Remove cannot delete *)
}.

Definition set_fs (m : gmap string file) (w : World) : World :=
  mkWorld m (now w) (stderr w) (stdout w) (Debug w) (sweeps w)
    (fault_open w) (fault_fstat w) (fault_readfile w) (fault_rename w)
    (fault_write w) (locked w).

Definition add_stderr (line : string) (w : World) : World :=
  mkWorld (fs w) (now w) (stderr w ++ [line]) (stdout w) (Debug w) (sweeps w)
    (fault_open w) (fault_fstat w) (fault_readfile w) (fault_rename w)
    (fault_write w) (locked w).

Definition add_stdout (line : string) (w : World) : World :=
  mkWorld (fs w) (now w) (stderr w) (stdout w ++ [line]) (Debug w) (sweeps w)
    (fault_open w) (fault_fstat w) (fault_readfile w) (fault_rename w)
    (fault_write w) (locked w).

Definition add_sweep (w : World) : World :=
  mkWorld (fs w) (now w) (stderr w) (stdout w) (Debug w) (S (sweeps w))
    (fault_open w) (fault_fstat w) (fault_readfile w) (fault_rename w)
    (fault_write w) (locked w).

(** ** The handler *)

(** [RotateHandler], with the [MuxWriter]'s [logFile] inlined ([None] is
    the nil pointer). *)
Record RotateHandler := mkHandler {
  logFile : option File;
  FilePath : string;
  MaxLines : Z;
  curLines : Z;
  MaxSize : Z;
  curSize : Z;
  MaxDays : Z;
  openDate : Z;
  Rotatable : bool
}.

Definition set_logFile (f : option File) (h : RotateHandler) : RotateHandler :=
  mkHandler f (FilePath h) (MaxLines h) (curLines h) (MaxSize h) (curSize h)
    (MaxDays h) (openDate h) (Rotatable h).

Definition set_curLines (n : Z) (h : RotateHandler) : RotateHandler :=
  mkHandler (logFile h) (FilePath h) (MaxLines h) n (MaxSize h) (curSize h)
    (MaxDays h) (openDate h) (Rotatable h).

Definition set_curSize (n : Z) (h : RotateHandler) : RotateHandler :=
  mkHandler (logFile h) (FilePath h) (MaxLines h) (curLines h) (MaxSize h) n
    (MaxDays h) (openDate h) (Rotatable h).

Definition set_openDate (d : Z) (h : RotateHandler) : RotateHandler :=
  mkHandler (logFile h) (FilePath h) (MaxLines h) (curLines h) (MaxSize h)
    (curSize h) (MaxDays h) d (Rotatable h).

Definition NewDefaultHandler (fp : string) : RotateHandler :=
  mkHandler None fp 0 0 0 0 0 0 false.

Definition NewDailyRotateHandler (fp : string) (days : Z) : RotateHandler :=
  mkHandler None fp 0 0 0 0 days 0 true.

Definition NewLinesRotateHandler (fp : string) (lines : Z) : RotateHandler :=
  mkHandler None fp lines 0 0 0 0 0 true.

Definition NewSizeRotateHandler (fp : string) (size : Z) : RotateHandler :=
  mkHandler None fp 0 0 size 0 0 0 true.

(** ** The monad: state of handler and world, with panics *)

Record State := mkState { hd : RotateHandler; os : World }.

Inductive Res (A : Type) :=
| Done (a : A) (s : State)
| Panicked (e : error) (s : State).
Arguments Done {A} a s.
Arguments Panicked {A} e s.

Definition M (A : Type) : Type := State -> Res A.

Definition ret {A} (a : A) : M A := fun s => Done a s.

Definition bind {A B} (c : M A) (k : A -> M B) : M B :=
  fun s => match c s with
           | Done a s' => k a s'
           | Panicked e s' => Panicked e s'
           end.

Definition panic {A} (e : error) : M A := fun s => Panicked e s.

(** [defer func() { if r := recover(); r != nil { ... } }()] around [c]. *)
Definition recover {A} (c : M A) (handler : error -> M A) : M A :=
  fun s => match c s with
           | Done a s' => Done a s'
           | Panicked e s' => handler e s'
           end.

Notation "'let!' x ':=' c 'in' k" := (bind c (fun x => k))
  (at level 10, x pattern, c at level 100, k at level 200).
Notation "c ';;' k" := (bind c (fun _ => k))
  (at level 100, k at level 200, right associativity).

Definition get_handler : M RotateHandler := fun s => Done (hd s) s.
Definition get_world : M World := fun s => Done (os s) s.
Definition modify_handler (f : RotateHandler -> RotateHandler) : M unit :=
  fun s => Done tt (mkState (f (hd s)) (os s)).
Definition modify_world (f : World -> World) : M unit :=
  fun s => Done tt (mkState (hd s) (f (os s))).

(** ** Library functions the source calls *)

(** The line separator. *)
Definition newline : string := String "010"%char "".

(** [strings.Split(s, sep)] for a non-empty separator: the pieces of [s]
    between the occurrences of [sep], scanned from the left; [skip]
    counts the bytes of a matched separator still to be passed over. *)
Fixpoint Split_from (sep : string) (skip : nat) (s : string) : list string :=
  match s with
  | EmptyString => [EmptyString]
  | String c s' =>
      match skip with
      | S k => Split_from sep k s'
      | O =>
          if String.prefix sep s
          then EmptyString :: Split_from sep (String.length sep - 1) s'
          else match Split_from sep O s' with
               | piece :: rest => String c piece :: rest
               | [] => [String c EmptyString]
               end
      end
  end.

Definition strings_Split (s sep : string) : list string := Split_from sep O s.

(** [strings.Count(s, "\n")]: the number of line separators in [s]. *)
Fixpoint count_newlines (s : string) : nat :=
  match s with
  | EmptyString => O
  | String c s' =>
      if Ascii.eqb c "010"%char then S (count_newlines s') else count_newlines s'
  end.

(** [strings.HasPrefix(s, prefix)] *)
Definition strings_HasPrefix (s prefix : string) : bool := String.prefix prefix s.

Definition is_separator (c : ascii) : bool := Ascii.eqb c "/"%char.

(** The two loops of [filepath.Base], on the reversed path. *)
Fixpoint strip_separators (r : list ascii) : list ascii :=
  match r with
  | c :: r' => if is_separator c then strip_separators r' else r
  | [] => []
  end.

Fixpoint last_element (r : list ascii) : list ascii :=
  match r with
  | c :: r' => if is_separator c then [] else c :: last_element r'
  | [] => []
  end.

(** [filepath.Base(path)] on a system whose separator is the slash. *)
Definition filepath_Base (path : string) : string :=
  match path with
  | EmptyString => "."
  | _ =>
      match last_element (strip_separators (rev (list_ascii_of_string path))) with
      | [] => "/"
      | e => string_of_list_ascii (rev e)
      end
  end.

(** Decimal digits of a non-negative integer, most significant first. *)
Fixpoint decimal_digits (fuel : nat) (n : Z) (acc : string) : string :=
  match fuel with
  | O => acc
  | S k =>
      let acc' := String (ascii_of_nat (Z.to_nat (48 + n mod 10))) acc in
      if n / 10 =? 0 then acc' else decimal_digits k (n / 10) acc'
  end.

Definition fmt_d (n : Z) : string :=
  decimal_digits (S (Z.to_nat (Z.log2 n))) n EmptyString.

Fixpoint zeros (k : nat) : string :=
  match k with O => EmptyString | S k' => String "0"%char (zeros k') end.

Definition pad_zero (width : nat) (s : string) : string :=
  zeros (width - String.length s) +:+ s.

(** [fmt.Sprintf("%03d", n)]: the sign counts towards the width. *)
Definition fmt_03d (n : Z) : string :=
  if n <? 0 then "-" +:+ pad_zero 2 (fmt_d (- n)) else pad_zero 3 (fmt_d n).

(** [fmt.Sprintf(".%s.%03d", date, num)] *)
Definition rotated_suffix (date : string) (num : Z) : string :=
  "." +:+ date +:+ "." +:+ fmt_03d num.

(** [fmt.Sprintf("%q", s)]; the escaping of special characters inside
    [s] is left out. *)
Definition fmt_q (s : string) : string :=
  String (ascii_of_nat 34) s +:+ String (ascii_of_nat 34) EmptyString.

(** ** System calls *)

Definition time_Now : M Time := fun s => Done (now (os s)) s.

(** [os.Lstat(path)]: fails exactly when nothing is at [path]. *)
Definition os_Lstat (path : string) : M (FileInfo + error) :=
  fun s => match fs (os s) !! path with
           | Some f => Done (inl (file_info f)) s
           | None => Done (inr (PathError "lstat" path ENOENT)) s
           end.

(** [os.OpenFile(path, os.O_WRONLY|os.O_APPEND|os.O_CREATE, 0644)] *)
Definition os_OpenFile (path : string) : M (File + error) :=
  fun s =>
    match fault_open (os s) with
    | Some e => Done (inr (PathError "open" path e)) s
    | None =>
        match fs (os s) !! path with
        | Some f =>
            if isDir f then Done (inr (PathError "open" path EISDIR)) s
            else Done (inl (mkFile path false)) s
        | None =>
            let f := mkfile EmptyString (Unix (now (os s))) false in
            Done (inl (mkFile path false))
              (mkState (hd s) (set_fs (<[path := f]> (fs (os s))) (os s)))
        end
    end.

(** [fd.Stat()] on an [*os.File]. *)
Definition File_Stat (fd : option File) : M (FileInfo + error) :=
  fun s =>
    match fd with
    | None => Done (inr (OsError ErrInvalid)) s
    | Some f =>
        if file_closed f then Done (inr (PathError "stat" (file_name f) ErrClosed)) s
        else match fault_fstat (os s) with
             | Some e => Done (inr (PathError "stat" (file_name f) e)) s
             | None =>
                 match fs (os s) !! file_name f with
                 | Some x => Done (inl (file_info x)) s
                 | None => Done (inl (mkFileInfo 0 (Unix (now (os s))) false)) s
                 end
             end
    end.

(** [ioutil.ReadFile(path)] *)
Definition ioutil_ReadFile (path : string) : M (string + error) :=
  fun s =>
    match fault_readfile (os s) with
    | Some e => Done (inr (PathError "read" path e)) s
    | None =>
        match fs (os s) !! path with
        | Some f =>
            if isDir f then Done (inr (PathError "read" path EISDIR)) s
            else Done (inl (content f)) s
        | None => Done (inr (PathError "open" path ENOENT)) s
        end
    end.

(** Appending [data] to the file at [path] (nothing visible happens when
    the file has been unlinked). *)
Definition append_bytes (path data : string) (w : World) : World :=
  set_fs (alter (fun f => mkfile (content f +:+ data) (Unix (now w)) (isDir f))
            path (fs w)) w.

(** The first [n] bytes of [s]. *)
Definition take_bytes (n : nat) (s : string) : string := String.substring 0 n s.

(** [fd.Write(b)] on an [*os.File] opened for appending: the number of
    bytes that reached the file, and the error that stopped it. *)
Definition File_Write (fd : option File) (b : string) : M (Z * option error) :=
  fun s =>
    match fd with
    | None => Done (0, Some (OsError ErrInvalid)) s
    | Some f =>
        if file_closed f
        then Done (0, Some (PathError "write" (file_name f) ErrClosed)) s
        else match fault_write (os s) with
             | Some (n, e) =>
                 let part := take_bytes n b in
                 Done (len part, Some (PathError "write" (file_name f) e))
                   (mkState (hd s) (append_bytes (file_name f) part (os s)))
             | None =>
                 Done (len b, None)
                   (mkState (hd s) (append_bytes (file_name f) b (os s)))
             end
    end.

(** [fd.Close()]: once closed an [*os.File] stays closed. *)
Definition File_Close (fd : option File) : option File :=
  match fd with
  | None => None
  | Some f => Some (mkFile (file_name f) true)
  end.

(** [os.Rename(oldpath, newpath)]: replaces whatever is at [newpath]. *)
Definition os_Rename (oldpath newpath : string) : M (option error) :=
  fun s =>
    match fault_rename (os s) with
    | Some e => Done (Some (LinkError "rename" oldpath newpath e)) s
    | None =>
        match fs (os s) !! oldpath with
        | None => Done (Some (LinkError "rename" oldpath newpath ENOENT)) s
        | Some f =>
            Done None
              (mkState (hd s)
                 (set_fs (<[newpath := f]> (delete oldpath (fs (os s)))) (os s)))
        end
    end.

(** [os.Remove(path)] *)
Definition os_Remove (path : string) : M (option error) :=
  fun s =>
    if decide (path ∈ locked (os s))
    then Done (Some (PathError "remove" path EACCES)) s
    else match fs (os s) !! path with
         | None => Done (Some (PathError "remove" path ENOENT)) s
         | Some _ =>
             Done None (mkState (hd s) (set_fs (delete path (fs (os s))) (os s)))
         end.

Definition fmt_Println (line : string) : M unit :=
  modify_world (add_stdout (line +:+ newline)).

Definition Fprintf_Stderr (text : string) : M unit :=
  modify_world (add_stderr text).

(** ** file_rotate.go *)

(** [(l *MuxWriter) Write] *)
Definition MuxWriter_Write (b : string) : M (Z * option error) :=
  let! w := get_handler in
  File_Write (logFile w) b.

(** [(l *MuxWriter) SetLogFile] *)
Definition SetLogFile (fd : File) : M unit :=
  let! w := get_handler in
  match logFile w with
  | Some _ => modify_handler (fun h => set_logFile (File_Close (logFile h)) h)
  | None => ret tt
  end ;;
  modify_handler (set_logFile (Some fd)).

(** [createLogFile].  The result of [os.MkdirAll] is discarded by the
    source and directories are not part of what [os_OpenFile] consults: a
    parent that is still missing shows as [fault_open]. *)
Definition createLogFile : M (File + error) :=
  let! w := get_handler in
  os_OpenFile (FilePath w).

(** [initLogFile] *)
Definition initLogFile : M (option error) :=
  let! w := get_handler in
  let fd := logFile w in
  let! r := File_Stat fd in
  match r with
  | inr err => ret (Some (errors_New ("get stat: " +:+ Error err +:+ newline)))
  | inl fInfo =>
      modify_handler (set_curSize (Size fInfo)) ;;
      let! t := time_Now in
      modify_handler (set_openDate (Day t)) ;;
      if 0 <? Size fInfo then
        let! c := ioutil_ReadFile (FilePath w) in
        match c with
        | inr err => ret (Some err)
        | inl content =>
            modify_handler
              (set_curLines (Z.of_nat (length (strings_Split content newline)))) ;;
            ret None
        end
      else
        modify_handler (set_curLines 0) ;;
        ret None
  end.

(** [Init] *)
Definition Init : M unit :=
  let! w := get_handler in
  if len (FilePath w) =? 0 then
    panic (errors_New "config must have filename")
  else
    let! r := createLogFile in
    match r with
    | inr err => panic err
    | inl fd =>
        SetLogFile fd ;;
        let! e := initLogFile in
        match e with
        | Some err => panic err
        | None => ret tt
        end
    end.

(** [go w.deleteOldLog()]: the sweep runs later, on its own. *)
Definition go_deleteOldLog : M unit := modify_world add_sweep.

Definition is_nil (err : option error) : bool :=
  match err with None => true | Some _ => false end.

Definition err_of {A} (r : A + error) : option error :=
  match r with inl _ => None | inr e => Some e end.

(** The loop of [DoRotate],
    [for ; err == nil && num <= 999; num++ { fname = ...; _, err = os.Lstat(fname) }],
    with its three variables. *)
Fixpoint probe (fuel : nat) (path : string) (num : Z) (fname : string)
    (err : option error) : M (Z * string * option error) :=
  match fuel with
  | O => ret (num, fname, err)
  | S k =>
      if is_nil err && (num <=? 999) then
        let! t := time_Now in
        let fname' := path +:+ rotated_suffix (Format_date t) num in
        let! r := os_Lstat fname' in
        probe k path (num + 1) fname' (err_of r)
      else ret (num, fname, err)
  end.

(** [DoRotate] *)
Definition DoRotate : M (option error) :=
  let! w := get_handler in
  let! r := os_Lstat (FilePath w) in
  match r with
  | inr _ => ret None
  | inl _ =>
      let! probed := probe 999 (FilePath w) 1 EmptyString None in
      let '(_, fname, err) := probed in
      match err with
      | None =>
          ret (Some (errors_New ("rotate: cannot find free log number to rename "
                                 +:+ FilePath w +:+ newline)))
      | Some _ =>
          modify_handler (fun h => set_logFile (File_Close (logFile h)) h) ;;
          let! e := os_Rename (FilePath w) fname in
          match e with
          | Some e => ret (Some (errors_New ("Rotate: " +:+ Error e +:+ newline)))
          | None =>
              Init ;;
              go_deleteOldLog ;;
              ret None
          end
      end
  end.

(** The condition of [doCheckRotate]. *)
Definition rotate_due (w : RotateHandler) (t : Time) : bool :=
  Rotatable w &&
  (((0 <? MaxLines w) && (MaxLines w <=? curLines w))
   || ((0 <? MaxSize w) && (MaxSize w <=? curSize w))
   || negb (Day t =? openDate w)).

(** [w.curLines++; w.curSize += size] *)
Definition count_write (size : Z) : M unit :=
  modify_handler (fun h => set_curLines (wrap64 (curLines h + 1)) h) ;;
  modify_handler (fun h => set_curSize (wrap64 (curSize h + size)) h).

(** The inner [if] of [doCheckRotate]: [true] when it returns early. *)
Definition try_rotate : M bool :=
  let! w := get_handler in
  let! r := DoRotate in
  match r with
  | Some err =>
      Fprintf_Stderr ("FileLogWriter(" +:+ fmt_q (FilePath w) +:+ "): "
                      +:+ Error err +:+ newline) ;;
      ret true
  | None => ret false
  end.

(** [doCheckRotate] *)
Definition doCheckRotate (size : Z) : M unit :=
  let! w := get_handler in
  let! t := time_Now in
  let! returned := (if rotate_due w t then try_rotate else ret false) in
  if (returned : bool) then ret tt else count_write size.

(** [(w *RotateHandler) Write] *)
Definition Write (data : string) : M (Z * option error) :=
  let! world := get_world in
  (if Debug world then fmt_Println data else ret tt) ;;
  let length := len data in
  doCheckRotate length ;;
  let! written := MuxWriter_Write data in
  let '(_, err) := (written : Z * option error) in
  ret (length, err).

(** ** The retention sweep *)

#[warnings="-register-all"]
(** What [filepath.Walk] meets under its root: a name whose [lstat]
    fails, a file that is not a directory, a directory with the entries
    read from it, or a directory whose names cannot be read. *)
Inductive tree :=
| Missing (path : string) (e : error)
| Plain (path : string) (size mtime : Z)
| Folder (path : string) (size mtime : Z) (children : list tree)
| Unreadable (path : string) (size mtime : Z) (e : error).

Definition WalkFunc : Type := string -> option FileInfo -> option error -> M (option error).

(** Whether [walk] lets [SkipDir] from this entry pass: it does for a
    failed [lstat] and for a directory, not for any other file. *)
Definition skippable (t : tree) : bool :=
  match t with
  | Plain _ _ _ => false
  | _ => true
  end.

(** [filepath.walk], and for a [Missing] entry the call the caller of
    [walk] makes in its place. *)
Fixpoint walk (fn : WalkFunc) (t : tree) : M (option error) :=
  match t with
  | Missing path e => fn path None (Some e)
  | Plain path size mtime => fn path (Some (mkFileInfo size mtime false)) None
  | Unreadable path size mtime e =>
      fn path (Some (mkFileInfo size mtime true)) (Some e)
  | Folder path size mtime children =>
      let! err1 := fn path (Some (mkFileInfo size mtime true)) None in
      match err1 with
      | Some e => ret (Some e)
      | None =>
          (fix each (l : list tree) : M (option error) :=
             match l with
             | [] => ret None
             | c :: l' =>
                 let! err := walk fn c in
                 match err with
                 | Some e =>
                     if skippable c && bool_decide (e = SkipDir)
                     then each l' else ret (Some e)
                 | None => each l'
                 end
             end) children
      end
  end.

(** [filepath.Walk] *)
Definition filepath_Walk (root : tree) (fn : WalkFunc) : M (option error) :=
  let! err := walk fn root in
  match err with
  | Some SkipDir => ret None
  | _ => ret err
  end.

(** The body of the function literal of [deleteOldLog]; a nil [info]
    makes [info.IsDir()] panic. *)
Definition deleteOldLog_body (path : string) (info : option FileInfo)
    (err : option error) : M (option error) :=
  match info with
  | None =>
      panic (errors_New
               "runtime error: invalid memory address or nil pointer dereference")
  | Some i =>
      let! w := get_handler in
      let! t := time_Now in
      if negb (IsDir i)
         && (ModTime i <? wrap64 (Unix t - wrap64 (60 * 60 * 24 * MaxDays w)))
      then
        if strings_HasPrefix (filepath_Base path) (filepath_Base (FilePath w))
        then os_Remove path ;; ret None
        else ret None
      else ret None
  end.

(** The function literal with its deferred [recover]. *)
Definition deleteOldLog_fn : WalkFunc :=
  fun path info err =>
    recover (deleteOldLog_body path info err)
      (fun r => ret (Some (errors_New ("Unable to delete old log '" +:+ path
                                       +:+ "', error: " +:+ Error r)))).

(** [deleteOldLog]; [dir] is what the walk finds at
    [filepath.Dir(w.FilePath)]. *)
Definition deleteOldLog (dir : tree) : M unit :=
  filepath_Walk dir deleteOldLog_fn ;;
  ret tt.

(** ** log.go: the modes of [New] *)

Definition RotateModeNoRotate : Z := 0.
Definition RotateModeWeek : Z := 1.
Definition RotateModeMonth : Z := 2.
Definition RotateMode16M : Z := 3.
Definition RotateMode256M : Z := 4.
Definition RotateModeMillion : Z := 5.

(** The [switch] of [New]. *)
Definition handler_of_mode (fp : string) (mode : Z) : RotateHandler :=
  if mode =? RotateModeNoRotate then NewDefaultHandler fp
  else if mode =? RotateModeWeek then NewDailyRotateHandler fp 7
  else if mode =? RotateModeMonth then NewDailyRotateHandler fp 30
  else if mode =? RotateMode16M then NewSizeRotateHandler fp (Z.shiftl 1 24)
  else if mode =? RotateMode256M then NewSizeRotateHandler fp (Z.shiftl 1 28)
  else if mode =? RotateModeMillion then NewLinesRotateHandler fp 1000000
  else NewDefaultHandler fp.

(** ** file_rotate.go: Close, and log.go: loggers and their registry *)

(** [(w *RotateHandler) Close] *)
Definition Close : M unit :=
  modify_handler (fun h => set_logFile (File_Close (logFile h)) h).

(** Functions of the Go library that log.go calls and whose results this
    development does not look into: case mapping, path joining, and the
    header [log.Logger] puts before a message for its prefix, its flags
    and the current time. *)
Record Library := mkLibrary {
  strings_ToLower : string -> string;
  strings_ToUpper : string -> string;
  filepath_Join : string -> string -> string;
  log_formatHeader : string -> Z -> Time -> string
}.

(** [log.Ldate|log.Lmicroseconds] *)
Definition Ldate_Lmicroseconds : Z := Z.lor 1 4.

(** [log.LstdFlags] *)
Definition LstdFlags : Z := Z.lor 1 2.

(** [Vlogger]: the embedded [*log.Logger] is its prefix, its flags and
    the handler it writes to.  In Go the logger points to its handler;
    here [Logger_out] records the handler as [New] left it, and the
    handler's later states are the [State] its writes run on. *)
Record Vlogger := mkVlogger {
  Logger_prefix : string;
  Logger_flags : Z;
  Logger_out : RotateHandler;
  Name : string;
  Vlogger_FilePath : string;
  HandleMode : Z
}.

(** [manager], without its mutex. *)
Record manager := mkManager {
  baseDir : string;
  loggers : gmap string Vlogger
}.

(** The package variable [bose] when the program starts. *)
Definition bose : manager := mkManager "./" ∅.

(** What a function of log.go does to the registry and the world. *)
Inductive Outcome (A : Type) :=
| Returned (a : A) (m : manager) (w : World)
| Aborted (e : error) (m : manager) (w : World).
Arguments Returned {A} a m w.
Arguments Aborted {A} e m w.

(** [New]: the handler for the mode, initialised, behind a new logger.
    The literal sets [Name] and [HandleMode] and leaves [FilePath] at its
    zero value. *)
Definition New (lib : Library) (name fp : string) (mode : Z) (w : World)
    : Res Vlogger :=
  let handler := handler_of_mode fp mode in
  match Init (mkState handler w) with
  | Done _ s =>
      Done (mkVlogger (strings_ToUpper lib name +:+ ":") Ldate_Lmicroseconds
              (hd s) name EmptyString mode) s
  | Panicked e s => Panicked e s
  end.

(** [os.Stat(path)]; the namespace has no symbolic links. *)
Definition os_Stat (path : string) (w : World) : FileInfo + error :=
  match fs w !! path with
  | Some f => inl (file_info f)
  | None => inr (PathError "stat" path ENOENT)
  end.

(** [SetLogDir]; [log.Panicf] prints through the standard logger and
    panics with the message. *)
Definition SetLogDir (lib : Library) (logDir : string) (m : manager) (w : World)
    : Outcome unit :=
  match os_Stat logDir w with
  | inr err =>
      let msg := "error when set log dir : " +:+ Error err in
      Aborted (errors_New msg) m
        (add_stderr (log_formatHeader lib EmptyString LstdFlags (now w)
                     +:+ msg +:+ newline) w)
  | inl _ => Returned tt (mkManager logDir (loggers m)) w
  end.

(** [GetLogger] *)
Definition GetLogger (lib : Library) (name : string) (mode : Z) (m : manager)
    (w : World) : Outcome Vlogger :=
  match loggers m !! name with
  | Some l => Returned l m w
  | None =>
      let fp := filepath_Join lib (baseDir m)
                  (strings_ToLower lib name +:+ ".log") in
      match New lib name fp mode w with
      | Done logger s =>
          Returned logger (mkManager (baseDir m) (<[name := logger]> (loggers m)))
            (os s)
      | Panicked e s => Aborted e m (os s)
      end
  end.

(** Whether [s] ends with the line separator. *)
Fixpoint ends_with_newline (s : string) : bool :=
  match s with
  | EmptyString => false
  | String c EmptyString => Ascii.eqb c "010"
  | String _ s' => ends_with_newline s'
  end.

(** The buffer [(l *Logger) Output] hands to its writer: header,
    message, and a line separator if the message does not end with one. *)
Definition Logger_buffer (lib : Library) (l : Vlogger) (t : Time) (s : string)
    : string :=
  log_formatHeader lib (Logger_prefix l) (Logger_flags l) t +:+ s
  +:+ (if ends_with_newline s then EmptyString else newline).

(** [(l *Logger) Output], run on the state of the handler behind [l]:
    one [Write] of the buffer, whose error it returns. *)
Definition Logger_Output (lib : Library) (l : Vlogger) (s : string)
    : M (option error) :=
  let! t := time_Now in
  let! r := Write (Logger_buffer lib l t s) in
  ret (snd r).

(** [(l *Vlogger) Error]; [shown] is the text [fmt.Sprintln] gives for
    the slice of arguments.  [Println] drops the error of [Output]. *)
Definition Vlogger_Error (lib : Library) (l : Vlogger) (shown : string) : M unit :=
  Logger_Output lib l (" >>>Error" +:+ newline) ;;
  Logger_Output lib l shown ;;
  ret tt.

(** ** Definitions used by the statements *)

Definition state_of {A} (r : Res A) : State :=
  match r with
  | Done _ s => s
  | Panicked _ s => s
  end.

(** The fields of a handler that are set when it is constructed. *)
Definition config (h : RotateHandler) : string * Z * Z * Z * bool :=
  (FilePath h, MaxLines h, MaxSize h, MaxDays h, Rotatable h).

(** The states a handler built as [h0] can be in: it starts in any
    world, the environment changes the world at will, and the program
    calls [Init], [Write] and lets a started sweep run. *)
Inductive reachable (h0 : RotateHandler) : State -> Prop :=
| reach_start (w : World) : reachable h0 (mkState h0 w)
| reach_env (s : State) (w : World) :
    reachable h0 s -> reachable h0 (mkState (hd s) w)
| reach_Init (s : State) :
    reachable h0 s -> reachable h0 (state_of (Init s))
| reach_Write (s : State) (data : string) :
    reachable h0 s -> reachable h0 (state_of (Write data s))
| reach_sweep (s : State) (dir : tree) :
    reachable h0 s -> reachable h0 (state_of (deleteOldLog dir s)).

(** A handler in byte-size mode: rotation enabled, a positive size
    threshold, no line threshold. *)
Definition size_mode (h : RotateHandler) : Prop :=
  Rotatable h = true /\ 0 < MaxSize h /\ MaxLines h = 0.

Definition keeps_config {A} (c : M A) : Prop :=
  forall s, config (hd (state_of (c s))) = config (hd s).

(** Two clock readings a day apart. *)
Definition day5 : Time := mkTime 1704412800 5 "2024-01-05".
Definition day6 : Time := mkTime 1704499200 6 "2024-01-06".

(** A world without faults holding the files of [m]. *)
Definition quiet (m : gmap string file) (t : Time) : World :=
  mkWorld m t [] [] false 0 None None None None None ∅.

Definition regular (text : string) (mtime : Z) : file := mkfile text mtime false.

(** The rest of [doCheckRotate] once the condition holds. *)
Definition rotate_then_count (size : Z) : M unit :=
  let! returned := try_rotate in
  if (returned : bool) then ret tt else count_write size.

(** A size-mode handler, opened on the 5th with 3 bytes in the file and
    a threshold of 10, on the 6th. *)
Definition size_handler_next_day : State :=
  mkState (hd (state_of (Init (mkState (NewSizeRotateHandler "logs/app.log" 10)
                                 (quiet {[ "logs/app.log" := regular "abc" 1704412800 ]} day5)))))
          (quiet {[ "logs/app.log" := regular "abc" 1704412800 ]} day6).

(** The target cannot be opened or created: the system refuses, or a
    directory is in the way. *)
Definition open_fails (s : State) : Prop :=
  fault_open (os s) <> None \/
  exists f, fs (os s) !! FilePath (hd s) = Some f /\ isDir f = true.

(** Seeding the counters fails: the descriptor cannot be statted, or the
    file is not empty and cannot be read. *)
Definition seeding_fails (s : State) : Prop :=
  fault_fstat (os s) <> None \/
  (fault_readfile (os s) <> None /\
   exists f, fs (os s) !! FilePath (hd s) = Some f /\ content f <> EmptyString).

Definition misconfigured (s : State) : Prop :=
  FilePath (hd s) = EmptyString \/ open_fails s \/ seeding_fails s.

(** The line count [initLogFile] stores for a file with this content. *)
Definition seeded_lines (text : string) : Z :=
  match text with
  | EmptyString => 0
  | _ => Z.of_nat (length (strings_Split text newline))
  end.

(** What a successful [Init] leaves: a fresh open descriptor on the
    path, the file that was there (or a new empty one) in place, and the
    state seeded from it. *)
Definition opened (s s' : State) : Prop :=
  logFile (hd s') = Some (mkFile (FilePath (hd s)) false) /\
  exists f,
    fs (os s') !! FilePath (hd s) = Some f /\ isDir f = false /\
    (fs (os s) !! FilePath (hd s) = Some f \/
     (fs (os s) !! FilePath (hd s) = None /\
      f = mkfile EmptyString (Unix (now (os s))) false)) /\
    (forall p, p <> FilePath (hd s) -> fs (os s') !! p = fs (os s) !! p) /\
    curSize (hd s') = len (content f) /\
    curLines (hd s') = seeded_lines (content f) /\
    openDate (hd s') = Day (now (os s)).

(** What a computation returned, if it did. *)
Definition result_of {A} (r : Res A) : option A :=
  match r with
  | Done a _ => Some a
  | Panicked _ _ => None
  end.

Definition two_lines : string := "a" +:+ newline +:+ "b" +:+ newline.

(** A line-count handler about to be initialised on a file that holds
    two complete lines. *)
Definition restart_on_two_lines : State :=
  mkState (NewLinesRotateHandler "logs/app.log" 1000)
          (quiet {[ "logs/app.log" := regular two_lines 1704412800 ]} day5).

(** An opened handler on a disk that takes two more bytes. *)
Definition disk_nearly_full : State :=
  let s := state_of (Init (mkState (NewDefaultHandler "logs/app.log") (quiet ∅ day5))) in
  mkState (hd s)
    (mkWorld (fs (os s)) day5 [] [] false 0 None None None None (Some (2%nat, ENOSPC)) ∅).

(** A size-mode handler with threshold 10 that has written 11 bytes. *)
Definition past_threshold : State :=
  let s0 := mkState (NewSizeRotateHandler "logs/app.log" 10) (quiet ∅ day5) in
  state_of (Write "world!" (state_of (Write "hello" (state_of (Init s0))))).

(** The same handler when the system refuses to rename. *)
Definition rename_refused : State :=
  mkState (hd past_threshold)
    (mkWorld (fs (os past_threshold)) day5 [] [] false 0
       None None None (Some EACCES) None ∅).

(** A directory in which every rotated name of the day is taken. *)
Definition crowded : gmap string file :=
  foldr (fun n m =>
           <[ "logs/app.log" +:+ rotated_suffix "2024-01-05" (Z.of_nat n)
              := regular "old" 1704412800 ]> m)
        {[ "logs/app.log" := regular "0123456789" 1704412800 ]}
        (seq 1 999).

(** A size-mode handler with threshold 10, opened there on ten bytes. *)
Definition names_exhausted : State :=
  state_of (Init (mkState (NewSizeRotateHandler "logs/app.log" 10)
                    (quiet crowded day5))).

(** The test the function literal applies to an entry. *)
Definition expired (h : RotateHandler) (t : Time) (path : string)
    (i : FileInfo) : bool :=
  negb (IsDir i)
  && (ModTime i <? wrap64 (Unix t - wrap64 (60 * 60 * 24 * MaxDays h)))
  && strings_HasPrefix (filepath_Base path) (filepath_Base (FilePath h)).

(** The entries of a tree whose [lstat] succeeded, with their info. *)
Fixpoint entries (t : tree) : list (string * FileInfo) :=
  match t with
  | Missing _ _ => []
  | Plain path size mtime => [(path, mkFileInfo size mtime false)]
  | Unreadable path size mtime _ => [(path, mkFileInfo size mtime true)]
  | Folder path size mtime children =>
      (path, mkFileInfo size mtime true) :: flat_map entries children
  end.

(** No [lstat] fails anywhere in the tree. *)
Fixpoint complete (t : tree) : bool :=
  match t with
  | Missing _ _ => false
  | Folder _ _ _ children => forallb complete children
  | _ => true
  end.

(** [s'] is [s] with the paths of [D] deleted. *)
Definition swept (D : string -> Prop) (s s' : State) : Prop :=
  hd s' = hd s /\ now (os s') = now (os s) /\ locked (os s') = locked (os s) /\
  (forall p, D p -> fs (os s') !! p = None) /\
  (forall p, ~ D p -> fs (os s') !! p = fs (os s) !! p) /\
  (forall p, fs (os s') !! p = None \/ fs (os s') !! p = fs (os s) !! p).

Definition doomed (h : RotateHandler) (t : Time) (l : list (string * FileInfo))
    (p : string) : Prop :=
  exists i, (p, i) ∈ l /\ expired h t p i = true.

(** An entry the sweep is meant to delete: not a directory, its base
    name starts with the base name of the live file, and it was last
    modified more than [MaxDays] days before now. *)
Definition old_log (h : RotateHandler) (t : Time) (dir : tree) (p : string) : Prop :=
  exists i, (p, i) ∈ entries dir /\ IsDir i = false /\
    strings_HasPrefix (filepath_Base p) (filepath_Base (FilePath h)) = true /\
    ModTime i < Unix t - 86400 * MaxDays h.

(** A modification time a little more than [days] days before [day5]. *)
Definition aged (days : Z) : Z := 1704412800 - 86400 * days - 1.

(** Three rotated files aged 1, 10 and 40 days, an unrelated old file
    and a subdirectory, seen on 2024-01-05 by a handler that keeps 30
    days. *)
Definition log_directory : tree :=
  Folder "logs" 4096 (aged 0)
    [ Plain "logs/app.log" 5 (aged 0);
      Plain "logs/app.log.2024-01-04.001" 3 (aged 1);
      Plain "logs/app.log.2023-12-26.001" 3 (aged 10);
      Plain "logs/app.log.2023-11-26.001" 3 (aged 40);
      Plain "logs/other.log" 3 (aged 100);
      Folder "logs/app.log.d" 4096 (aged 100)
        [ Plain "logs/app.log.d/app.log.2023-01-01.001" 3 (aged 300) ] ].

Definition log_files : gmap string file :=
  list_to_map
    [ ("logs/app.log", regular "hello" (aged 0));
      ("logs/app.log.2024-01-04.001", regular "one" (aged 1));
      ("logs/app.log.2023-12-26.001", regular "ten" (aged 10));
      ("logs/app.log.2023-11-26.001", regular "old" (aged 40));
      ("logs/other.log", regular "etc" (aged 100));
      ("logs/app.log.d/app.log.2023-01-01.001", regular "sub" (aged 300)) ].

Definition monthly_handler : State :=
  mkState (NewDailyRotateHandler "logs/app.log" 30) (quiet log_files day5).

(** The directory of [monthly_handler] when the first rotated file
    disappears between the reading of the names and its [lstat]. *)
Definition log_directory_racing : tree :=
  Folder "logs" 4096 (aged 0)
    [ Plain "logs/app.log" 5 (aged 0);
      Missing "logs/app.log.2023-10-01.001"
        (PathError "lstat" "logs/app.log.2023-10-01.001" ENOENT);
      Plain "logs/app.log.2023-11-26.001" 3 (aged 40) ].

(** A size-mode handler after its second rotation of the day, and what
    a walk of its directory finds a second later. *)
Definition rotated_twice : State :=
  let s0 := mkState (NewSizeRotateHandler "logs/app.log" 4) (quiet ∅ day5) in
  let s := state_of (Write "three" (state_of (Write "two22" (state_of (Write "one11"
             (state_of (Init s0))))))) in
  mkState (hd s) (quiet (fs (os s)) (mkTime (1704412800 + 1) 5 "2024-01-05")).

Definition rotated_twice_directory : tree :=
  Folder "logs" 4096 1704412800
    [ Plain "logs/app.log" 5 1704412800;
      Plain "logs/app.log.2024-01-05.001" 5 1704412800;
      Plain "logs/app.log.2024-01-05.002" 5 1704412800 ].

(** The name [DoRotate] tries for sequence number [n]: the base path,
    a dot, the date, a dot and the number padded to three digits. *)
Definition rotated_name (s : State) (n : Z) : string :=
  FilePath (hd s) +:+ "." +:+ Format_date (now (os s)) +:+ "." +:+ fmt_03d n.

(** The state in which [DoRotate] calls [Init]: descriptor closed, live
    file moved to [fname]. *)
Definition renamed (s : State) (f : file) (fname : string) : State :=
  mkState (set_logFile (File_Close (logFile (hd s))) (hd s))
          (set_fs (<[fname := f]> (delete (FilePath (hd s)) (fs (os s)))) (os s)).

Definition calm (w : World) : Prop :=
  fault_open w = None /\ fault_fstat w = None /\ fault_readfile w = None /\
  fault_rename w = None /\ fault_write w = None.

Definition same_env (w w' : World) : Prop :=
  now w' = now w /\ stderr w' = stderr w /\ stdout w' = stdout w /\
  Debug w' = Debug w /\ sweeps w' = sweeps w /\
  fault_open w' = fault_open w /\ fault_fstat w' = fault_fstat w /\
  fault_readfile w' = fault_readfile w /\ fault_rename w' = fault_rename w /\
  fault_write w' = fault_write w /\ locked w' = locked w.

(** What a write of [data] leaves when it started from state [s] with
    the file [f] under the live path and nothing failed: the descriptor
    is open on the live path, whose file holds [data] after the old
    content, or [data] alone after a rotation, in which case the old file
    is under a rotated name; the byte count is the size of the live file;
    the line count went up by one, or restarts at one. *)
Definition written (data : string) (f : file) (s s' : State) : Prop :=
  let due := rotate_due (hd s) (now (os s)) in
  config (hd s') = config (hd s) /\
  logFile (hd s') = Some (mkFile (FilePath (hd s)) false) /\
  (exists f', fs (os s') !! FilePath (hd s) = Some f' /\ isDir f' = false /\
     content f' = (if due then data else content f +:+ data) /\
     curSize (hd s') = len (content f')) /\
  curLines (hd s') = (if due then 1 else wrap64 (curLines (hd s) + 1)) /\
  openDate (hd s') = (if due then Day (now (os s)) else openDate (hd s)) /\
  (if due
   then exists n, 1 <= n <= 999 /\ fs (os s') !! rotated_name s n = Some f
   else forall p, p <> FilePath (hd s) -> fs (os s') !! p = fs (os s) !! p) /\
  calm (os s') /\ now (os s') = now (os s) /\ stderr (os s') = stderr (os s).

Definition shrunk (D : string -> Prop) (s s' : State) : Prop :=
  hd s' = hd s /\ same_env (os s) (os s') /\
  forall p, fs (os s') !! p = fs (os s) !! p \/ (D p /\ fs (os s') !! p = None).

Definition candidate (h : RotateHandler) (l : list (string * FileInfo))
    (p : string) : Prop :=
  exists i, (p, i) ∈ l /\ IsDir i = false /\
    strings_HasPrefix (filepath_Base p) (filepath_Base (FilePath h)) = true.

(** The number a decimal numeral stands for. *)
Fixpoint decimal_value (acc : Z) (s : string) : Z :=
  match s with
  | EmptyString => acc
  | String c s' => decimal_value (10 * acc + (Z.of_nat (nat_of_ascii c) - 48)) s'
  end.

(** ASCII case mapping of one byte. *)
Definition ascii_lower (c : ascii) : ascii :=
  let n := nat_of_ascii c in
  if ((65 <=? n) && (n <=? 90))%nat then ascii_of_nat (n + 32) else c.

Definition ascii_upper (c : ascii) : ascii :=
  let n := nat_of_ascii c in
  if ((97 <=? n) && (n <=? 122))%nat then ascii_of_nat (n - 32) else c.

Fixpoint map_bytes (f : ascii -> ascii) (s : string) : string :=
  match s with
  | EmptyString => EmptyString
  | String c s' => String (f c) (map_bytes f s')
  end.

(** Stand-ins for the library on ASCII names and a clean directory:
    case mapping byte by byte, joining with one slash, and the prefix
    alone as header. *)
Definition plain_library : Library :=
  mkLibrary (map_bytes ascii_lower) (map_bytes ascii_upper)
    (fun dir elem => dir +:+ "/" +:+ elem)
    (fun prefix _ _ => prefix).

(** The registry after [SetLogDir("logs")]. *)
Definition registry_in_logs : manager := mkManager "logs" ∅.

(** A line-count handler with threshold 2 that has written one line. *)
Definition one_line_before_threshold : State :=
  state_of (Write ("first" +:+ newline)
              (state_of (Init (mkState (NewLinesRotateHandler "logs/app.log" 2)
                                 (quiet ∅ day5))))).

(** The logger [GetLogger] would make for the name App. *)
Definition app_logger : Vlogger :=
  mkVlogger "APP:" Ldate_Lmicroseconds (NewLinesRotateHandler "logs/app.log" 2)
    "App" EmptyString RotateModeMillion.

(** A handler as a rotating constructor returns it and before any
    [Init]: no descriptor, no recorded day. *)
Definition uninitialised (h : RotateHandler) : Prop :=
  Rotatable h = true /\ logFile h = None /\ openDate h = 0.

(** A size-mode handler that was never initialised, beside a log file a
    previous run left. *)
Definition never_initialised : State :=
  mkState (NewSizeRotateHandler "logs/app.log" 10)
          (quiet {[ "logs/app.log" := regular "old" 1704326400 ]} day5).

(** A handler that was never initialised, in an empty directory. *)
Definition never_initialised_no_file : State :=
  mkState (NewSizeRotateHandler "logs/app.log" 10) (quiet ∅ day5).

(** The world of [past_threshold] after its rotation, a second later,
    and what a walk of the directory finds then. *)
Definition a_second_later : World :=
  quiet (fs (os (state_of (DoRotate past_threshold))))
        (mkTime (1704412800 + 1) 5 "2024-01-05").

Definition rotated_once_directory : tree :=
  Folder "logs" 4096 1704412800
    [ Plain "logs/app.log" 0 1704412800;
      Plain "logs/app.log.2024-01-05.001" 11 1704412800 ].

(** A size-mode handler after two rotations within one second, the
    clock not having moved. *)
Definition rotated_twice_at_once : State :=
  let s0 := mkState (NewSizeRotateHandler "logs/app.log" 4) (quiet ∅ day5) in
  state_of (Write "three" (state_of (Write "two22" (state_of (Write "one11"
    (state_of (Init s0))))))).

(** What a walk of [log_directory] finds after the sweep of
    [monthly_handler]. *)
Definition log_directory_swept : tree :=
  Folder "logs" 4096 (aged 0)
    [ Plain "logs/app.log" 5 (aged 0);
      Plain "logs/app.log.2024-01-04.001" 3 (aged 1);
      Plain "logs/app.log.2023-12-26.001" 3 (aged 10);
      Plain "logs/other.log" 3 (aged 100);
      Folder "logs/app.log.d" 4096 (aged 100) [] ].

(** * Properties *)

(** ** Preservation of the configuration *)

Lemma keeps_config_bind {A B} (c : M A) (k : A -> M B) :
  keeps_config c -> (forall a, keeps_config (k a)) -> keeps_config (bind c k).
Proof.
  intros Hc Hk s. unfold bind. specialize (Hc s).
  destruct (c s) as [a s1|e s1]; simpl in *.
  - rewrite (Hk a s1). exact Hc.
  - exact Hc.
Qed.

Lemma keeps_config_ret {A} (a : A) : keeps_config (ret a).
Proof. intros s. reflexivity. Qed.

Lemma keeps_config_panic {A} (e : error) : keeps_config (@panic A e).
Proof. intros s. reflexivity. Qed.

Lemma keeps_config_recover {A} (c : M A) (h : error -> M A) :
  keeps_config c -> (forall e, keeps_config (h e)) -> keeps_config (recover c h).
Proof.
  intros Hc Hh s. unfold recover. specialize (Hc s).
  destruct (c s) as [a s1|e s1]; simpl in *.
  - exact Hc.
  - rewrite (Hh e s1). exact Hc.
Qed.

Lemma keeps_config_world (f : World -> World) : keeps_config (modify_world f).
Proof. intros s. reflexivity. Qed.

Lemma keeps_config_handler (f : RotateHandler -> RotateHandler) :
  (forall h, config (f h) = config h) -> keeps_config (modify_handler f).
Proof. intros Hf s. simpl. apply Hf. Qed.

Lemma keeps_config_get_handler : keeps_config get_handler.
Proof. intros s. reflexivity. Qed.

Lemma keeps_config_get_world : keeps_config get_world.
Proof. intros s. reflexivity. Qed.

Lemma keeps_config_Now : keeps_config time_Now.
Proof. intros s. reflexivity. Qed.

Lemma keeps_config_Lstat path : keeps_config (os_Lstat path).
Proof. intros s. unfold os_Lstat. destruct (fs (os s) !! path); reflexivity. Qed.

Lemma keeps_config_OpenFile path : keeps_config (os_OpenFile path).
Proof.
  intros s. unfold os_OpenFile.
  destruct (fault_open (os s)); [reflexivity|].
  destruct (fs (os s) !! path) as [f|]; [destruct (isDir f)|]; reflexivity.
Qed.

Lemma keeps_config_Stat fd : keeps_config (File_Stat fd).
Proof.
  intros s. unfold File_Stat. destruct fd as [f|]; [|reflexivity].
  destruct (file_closed f); [reflexivity|].
  destruct (fault_fstat (os s)); [reflexivity|].
  destruct (fs (os s) !! file_name f); reflexivity.
Qed.

Lemma keeps_config_ReadFile path : keeps_config (ioutil_ReadFile path).
Proof.
  intros s. unfold ioutil_ReadFile.
  destruct (fault_readfile (os s)); [reflexivity|].
  destruct (fs (os s) !! path) as [f|]; [destruct (isDir f)|]; reflexivity.
Qed.

Lemma keeps_config_File_Write fd b : keeps_config (File_Write fd b).
Proof.
  intros s. unfold File_Write. destruct fd as [f|]; [|reflexivity].
  destruct (file_closed f); [reflexivity|].
  destruct (fault_write (os s)) as [[n e]|]; reflexivity.
Qed.

Lemma keeps_config_Rename a b : keeps_config (os_Rename a b).
Proof.
  intros s. unfold os_Rename.
  destruct (fault_rename (os s)); [reflexivity|].
  destruct (fs (os s) !! a); reflexivity.
Qed.

Lemma keeps_config_Remove path : keeps_config (os_Remove path).
Proof.
  intros s. unfold os_Remove.
  destruct (decide (path ∈ locked (os s))); [reflexivity|].
  destruct (fs (os s) !! path); reflexivity.
Qed.

Create HintDb keeps discriminated.
#[global] Hint Resolve keeps_config_ret keeps_config_panic keeps_config_world
  keeps_config_get_handler keeps_config_get_world keeps_config_Now
  keeps_config_Lstat keeps_config_OpenFile keeps_config_Stat
  keeps_config_ReadFile keeps_config_File_Write keeps_config_Rename
  keeps_config_Remove : keeps.

(** Splits a computation along its binds and branches, and closes the
    leaves from the hint base. *)
Ltac keeps :=
  repeat match goal with
    | |- _ => assumption
    | |- forall _, _ => intro
    | |- keeps_config (bind _ _) => apply keeps_config_bind
    | |- keeps_config (recover _ _) => apply keeps_config_recover
    | |- keeps_config (modify_handler _) =>
        apply keeps_config_handler; intros; reflexivity
    | |- keeps_config (match ?x with _ => _ end) => destruct x
    | |- keeps_config (if ?x then _ else _) => destruct x
    | |- keeps_config _ => solve [auto with keeps]
    end.

Lemma keeps_config_SetLogFile fd : keeps_config (SetLogFile fd).
Proof. unfold SetLogFile. keeps. Qed.

Lemma keeps_config_initLogFile : keeps_config initLogFile.
Proof. unfold initLogFile. keeps. Qed.

Lemma keeps_config_Init : keeps_config Init.
Proof.
  unfold Init, createLogFile.
  pose proof keeps_config_SetLogFile. pose proof keeps_config_initLogFile.
  keeps.
Qed.

Lemma keeps_config_probe fuel path : forall num fname err,
  keeps_config (probe fuel path num fname err).
Proof.
  induction fuel as [|k IH]; intros; simpl.
  - keeps.
  - destruct (is_nil err && (num <=? 999)); keeps.
Qed.

Lemma keeps_config_DoRotate : keeps_config DoRotate.
Proof.
  unfold DoRotate, go_deleteOldLog.
  pose proof keeps_config_Init. pose proof keeps_config_probe.
  keeps.
Qed.

Lemma keeps_config_doCheckRotate size : keeps_config (doCheckRotate size).
Proof.
  unfold doCheckRotate, try_rotate, count_write, Fprintf_Stderr.
  pose proof keeps_config_DoRotate.
  keeps.
Qed.

Lemma keeps_config_Write data : keeps_config (Write data).
Proof.
  unfold Write, MuxWriter_Write, fmt_Println.
  pose proof keeps_config_doCheckRotate.
  keeps.
Qed.

(** Induction over a [tree] that reaches the children of a [Folder]. *)
Lemma tree_nested_ind (P : tree -> Prop) :
  (forall path e, P (Missing path e)) ->
  (forall path size mtime, P (Plain path size mtime)) ->
  (forall path size mtime e, P (Unreadable path size mtime e)) ->
  (forall path size mtime children,
     Forall P children -> P (Folder path size mtime children)) ->
  forall t, P t.
Proof.
  intros HMissing HPlain HUnreadable HFolder.
  fix IH 1. intros [path e|path size mtime|path size mtime children|path size mtime e].
  - apply HMissing.
  - apply HPlain.
  - apply HFolder. induction children as [|c l IHl].
    + apply List.Forall_nil.
    + apply List.Forall_cons; [apply IH|exact IHl].
  - apply HUnreadable.
Qed.

Lemma keeps_config_walk (fn : WalkFunc) :
  (forall path info err, keeps_config (fn path info err)) ->
  forall t, keeps_config (walk fn t).
Proof.
  intros Hfn t. induction t as [| | |path size mtime children IH] using tree_nested_ind;
    simpl; try apply Hfn.
  apply keeps_config_bind; [apply Hfn|]. intros [e|]; [keeps|].
  induction IH as [|c l Hc _ IHl]; [keeps|].
  apply keeps_config_bind; [exact Hc|].
  intros [e|]; [|exact IHl].
  destruct (skippable c && bool_decide (e = SkipDir)); [exact IHl|keeps].
Qed.

Lemma keeps_config_deleteOldLog_fn path info err :
  keeps_config (deleteOldLog_fn path info err).
Proof. unfold deleteOldLog_fn, deleteOldLog_body. keeps. Qed.

Lemma keeps_config_deleteOldLog dir : keeps_config (deleteOldLog dir).
Proof.
  unfold deleteOldLog, filepath_Walk.
  pose proof (keeps_config_walk deleteOldLog_fn keeps_config_deleteOldLog_fn).
  keeps.
Qed.

(** The configuration of a handler never changes after construction. *)
Lemma reachable_config h0 s : reachable h0 s -> config (hd s) = config h0.
Proof.
  induction 1 as [w|s w _ IH|s _ IH|s data _ IH|s dir _ IH]; simpl.
  - reflexivity.
  - exact IH.
  - rewrite keeps_config_Init. exact IH.
  - rewrite keeps_config_Write. exact IH.
  - rewrite keeps_config_deleteOldLog. exact IH.
Qed.

Lemma reachable_size_mode fp S s :
  0 < S -> reachable (NewSizeRotateHandler fp S) s ->
  Rotatable (hd s) = true /\ MaxSize (hd s) = S /\ MaxLines (hd s) = 0.
Proof.
  intros HS Hr. apply reachable_config in Hr. unfold config in Hr. simpl in Hr.
  by simplify_eq.
Qed.

(** ** Byte-size mode: when rotation is attempted *)

Lemma size_handler_next_day_reachable :
  reachable (NewSizeRotateHandler "logs/app.log" 10) size_handler_next_day.
Proof.
  unfold size_handler_next_day.
  apply (reach_env _ (state_of (Init _))). apply reach_Init. apply reach_start.
Qed.

(** C1, as stated, fails: under byte-size mode a write whose pre-write
    byte count (3) is below the threshold (10) still rotates when the day
    of the month differs from the day the file was opened. *)
Lemma size_mode_rotates_below_threshold :
  ~ (forall fp S s size, 0 < S -> reachable (NewSizeRotateHandler fp S) s ->
       doCheckRotate size s =
       (if S <=? curSize (hd s) then rotate_then_count size s
        else count_write size s)).
Proof.
  intros H.
  specialize (H "logs/app.log" 10 size_handler_next_day 1 ltac:(lia)
                size_handler_next_day_reachable).
  apply (f_equal (fun r => sweeps (os (state_of r)))) in H.
  vm_compute in H. discriminate H.
Qed.

(** C1 (amended): for every state a handler built in byte-size mode with
    threshold S > 0 can reach, a write attempts rotation exactly when the
    pre-write byte count is at least S or the day of the month differs
    from the day recorded at open; otherwise it only counts the write. *)
Theorem size_mode_rotation_condition fp S s size :
  0 < S -> reachable (NewSizeRotateHandler fp S) s ->
  doCheckRotate size s =
  (if (S <=? curSize (hd s)) || negb (Day (now (os s)) =? openDate (hd s))
   then rotate_then_count size s
   else count_write size s).
Proof.
  intros HS Hr. destruct (reachable_size_mode fp S s HS Hr) as (HR & HM & HL).
  unfold doCheckRotate, rotate_then_count, bind at 1 2. simpl.
  unfold rotate_due. rewrite HR, HM, HL. simpl.
  assert (HS' : (0 <? S) = true) by (apply Z.ltb_lt; exact HS).
  rewrite HS'. simpl.
  destruct ((S <=? curSize (hd s)) || negb (Day (now (os s)) =? openDate (hd s)));
    reflexivity.
Qed.

Lemma size_mode_rotation_condition_witness :
  doCheckRotate 1 size_handler_next_day =
  (if (10 <=? curSize (hd size_handler_next_day))
      || negb (Day (now (os size_handler_next_day))
               =? openDate (hd size_handler_next_day))
   then rotate_then_count 1 size_handler_next_day
   else count_write 1 size_handler_next_day).
Proof.
  apply (size_mode_rotation_condition "logs/app.log" 10 size_handler_next_day 1).
  - lia.
  - exact size_handler_next_day_reachable.
Defined.

(** ** Initialisation *)

#[local] Set Warnings "-clear-no-such-hyp".

Lemma prefix_newline c s :
  String.prefix newline (String c s) = Ascii.eqb c "010".
Proof.
  unfold newline.
  change (String.prefix (String "010" "") (String c s))
    with (match ascii_dec "010"%char c with
          | left _ => String.prefix "" s
          | right _ => false
          end).
  destruct (ascii_dec "010"%char c) as [<-|Hne].
  - destruct s; reflexivity.
  - symmetry. apply Ascii.eqb_neq. congruence.
Qed.

Lemma Split_from_cons sep c s :
  Split_from sep 0 (String c s) =
  if String.prefix sep (String c s)
  then EmptyString :: Split_from sep (String.length sep - 1) s
  else match Split_from sep O s with
       | piece :: rest => String c piece :: rest
       | [] => [String c EmptyString]
       end.
Proof. reflexivity. Qed.

(** Splitting on the line separator yields one piece more than there
    are separators. *)
Lemma Split_newline_length s :
  length (strings_Split s newline) = S (count_newlines s).
Proof.
  unfold strings_Split. induction s as [|c s IH]; [reflexivity|].
  rewrite Split_from_cons, prefix_newline.
  cbn [count_newlines]. destruct (Ascii.eqb c "010").
  - cbn. rewrite IH. reflexivity.
  - destruct (Split_from newline 0 s); [discriminate IH|exact IH].
Qed.

Lemma len_zero s : (len s =? 0) = true <-> s = EmptyString.
Proof. destruct s; unfold len; simpl; split; intros; try done; lia. Qed.

Lemma len_pos s : (0 <? len s) = true <-> s <> EmptyString.
Proof. destruct s; unfold len; simpl; split; intros; done. Qed.

Ltac string_facts :=
  repeat match goal with
    | H : (len _ =? 0) = true |- _ => apply len_zero in H
    | H : (len ?x =? 0) = false |- _ =>
        assert (x <> EmptyString)
          by (intros E; apply len_zero in E; congruence); clear H
    | H : (0 <? len _) = true |- _ => apply len_pos in H
    | H : (0 <? len ?x) = false |- _ =>
        assert (x = EmptyString) by (destruct x; [done|discriminate H]); clear H
    end.

Lemma Init_cases s :
  match Init s with
  | Panicked _ _ => misconfigured s
  | Done _ s' => ~ misconfigured s /\ opened s s'
  end.
Proof.
  unfold misconfigured, opened, open_fails, seeding_fails, seeded_lines.
  unfold Init, createLogFile, SetLogFile, initLogFile, os_OpenFile, File_Stat,
    ioutil_ReadFile, time_Now, modify_handler, get_handler, bind, ret, panic.
  destruct s as [h w]. cbn.
  repeat (case_match; simplify_eq; cbn in * ).
  all: rewrite ?lookup_insert_eq in *; simplify_eq.
  all: string_facts.
  all: try solve [naive_solver].
  all: split;
    [ intros [?|[[?|(?&?&?)]|[?|(?&?&?&?)]]]; simplify_eq; congruence
    | split; [reflexivity|] ].
  all: eexists; split; [first [eassumption | reflexivity]|].
  all: cbn; repeat split; auto.
  all: try (intros p Hp; apply lookup_insert_ne; congruence).
  all: try (destruct (content _); [congruence|reflexivity]).
  all: try (match goal with H : content _ = EmptyString |- _ => rewrite H end;
            reflexivity).
Qed.

(** C9: [Init] panics if and only if the configured path is empty, the
    target cannot be opened or created, or seeding the counters from the
    opened file fails; when it returns, the file is open for appending
    under the configured path (created empty if it was absent) and the
    byte count, line count and open day are seeded from it. *)
Theorem Init_panics_iff_misconfigured s :
  ((exists e s', Init s = Panicked e s') <->
   FilePath (hd s) = EmptyString \/ open_fails s \/ seeding_fails s)
  /\ (forall u s', Init s = Done u s' -> opened s s').
Proof.
  pose proof (Init_cases s) as H. fold (misconfigured s).
  destruct (Init s) as [u s1|e s1].
  - destruct H as [Hgood Hopen]. split.
    + split; [intros (e & s' & [=]) | intros Hbad; contradiction].
    + intros u' s' [= <- <-]. exact Hopen.
  - split.
    + split; [intros _; exact H | eauto].
    + intros u s' [=].
Qed.

(** Seeding after a successful [Init]: the byte count is the size of
    the file, and the line count is zero for an empty file and one more
    than the number of line separators otherwise. *)
Lemma Init_seeds s u s' f :
  Init s = Done u s' ->
  fs (os s') !! FilePath (hd s) = Some f ->
  curSize (hd s') = len (content f) /\
  curLines (hd s') =
    match content f with
    | EmptyString => 0
    | _ => Z.of_nat (count_newlines (content f)) + 1
    end.
Proof.
  intros HI Hf. pose proof (Init_cases s) as H. rewrite HI in H.
  destruct H as [_ (_ & g & Hg & _ & _ & _ & Hsize & Hlines & _)].
  rewrite Hf in Hg. injection Hg as <-. split; [exact Hsize|].
  rewrite Hlines. unfold seeded_lines.
  destruct (content f) as [|c t] eqn:E; [reflexivity|].
  rewrite Split_newline_length. lia.
Qed.

(** C3 at a failing input: a file of two lines, that is with two line
    separators and four bytes, seeds the byte count with 4 and the line
    count with 3. *)
Theorem Init_seeds_one_line_too_many :
  count_newlines two_lines = 2%nat /\
  result_of (Init restart_on_two_lines) = Some tt /\
  curSize (hd (state_of (Init restart_on_two_lines))) = 4 /\
  curLines (hd (state_of (Init restart_on_two_lines))) = 3.
Proof. vm_compute. repeat split; reflexivity. Qed.

(** An empty file and an absent file both seed zero and zero. *)
Example Init_seeds_zero_for_empty_and_absent :
  let empty := mkState (NewLinesRotateHandler "logs/app.log" 1000)
                 (quiet {[ "logs/app.log" := regular EmptyString 1704412800 ]} day5) in
  let absent := mkState (NewLinesRotateHandler "logs/app.log" 1000) (quiet ∅ day5) in
  (curSize (hd (state_of (Init empty))), curLines (hd (state_of (Init empty)))) = (0, 0) /\
  (curSize (hd (state_of (Init absent))), curLines (hd (state_of (Init absent)))) = (0, 0).
Proof. vm_compute. split; reflexivity. Qed.

(** ** Writing *)

Lemma bind_Done {A B} (c : M A) (k : A -> M B) s b s' :
  bind c k s = Done b s' -> exists a s1, c s = Done a s1 /\ k a s1 = Done b s'.
Proof. unfold bind. destruct (c s) as [a s1|e s1]; [eauto|discriminate]. Qed.

(** The count [Write] returns is always the length of the payload, and
    the error is the one the append reported. *)
Lemma Write_returns data s n err s' :
  Write data s = Done (n, err) s' ->
  n = len data /\ exists s1 k, MuxWriter_Write data s1 = Done (k, err) s'.
Proof.
  intros H. unfold Write in H.
  apply bind_Done in H as (w & s1 & _ & H).
  apply bind_Done in H as (u & s2 & _ & H).
  cbv zeta in H.
  apply bind_Done in H as (u' & s3 & _ & H).
  apply bind_Done in H as ([k e] & s4 & Hw & H).
  injection H as <- <- <-. eauto.
Qed.

(** C8 at a failing input: the append stops after two of five bytes;
    [Write] hands the append's error to the caller, with the count 5. *)
Theorem Write_reports_length_not_bytes_written :
  result_of (MuxWriter_Write "hello" disk_nearly_full)
    = Some (2, Some (PathError "write" "logs/app.log" ENOSPC)) /\
  result_of (Write "hello" disk_nearly_full)
    = Some (5, Some (PathError "write" "logs/app.log" ENOSPC)) /\
  content <$> fs (os (state_of (Write "hello" disk_nearly_full))) !! "logs/app.log"
    = Some "he".
Proof. vm_compute. repeat split; reflexivity. Qed.

(** ** Failed rotations *)

Lemma rename_refused_reachable :
  reachable (NewSizeRotateHandler "logs/app.log" 10) rename_refused.
Proof.
  unfold rename_refused, past_threshold.
  apply (reach_env _ (state_of (Write "world!" _))).
  do 2 apply reach_Write. apply reach_Init. apply reach_start.
Qed.

(** C2 at a failing input: the rename fails after the descriptor has
    been closed.  The failure is printed to the error stream, but the
    write then meets the closed descriptor: the caller gets an error and
    the payload reaches no file. *)
Theorem failed_rename_drops_the_write :
  result_of (Write "x" rename_refused)
    = Some (1, Some (PathError "write" "logs/app.log" ErrClosed)) /\
  logFile (hd (state_of (Write "x" rename_refused)))
    = Some (mkFile "logs/app.log" true) /\
  map_to_list (fs (os rename_refused))
    = [("logs/app.log", regular "helloworld!" 1704412800)] /\
  map_to_list (fs (os (state_of (Write "x" rename_refused))))
    = [("logs/app.log", regular "helloworld!" 1704412800)] /\
  length (stderr (os (state_of (Write "x" rename_refused)))) = 1%nat.
Proof. vm_compute. repeat split; reflexivity. Qed.

(** C4 at a failing input: the rotation the write triggers finds no
    free name.  The payload is appended to the live file and the write
    succeeds, but neither counter moves. *)
Theorem failed_rotation_skips_the_counters :
  result_of (Write "x" names_exhausted) = Some (1, None) /\
  content <$> fs (os names_exhausted) !! "logs/app.log" = Some "0123456789" /\
  content <$> fs (os (state_of (Write "x" names_exhausted))) !! "logs/app.log"
    = Some "0123456789x" /\
  curLines (hd (state_of (Write "x" names_exhausted)))
    = curLines (hd names_exhausted) /\
  curSize (hd (state_of (Write "x" names_exhausted)))
    = curSize (hd names_exhausted) /\
  length (stderr (os (state_of (Write "x" names_exhausted)))) = 1%nat.
Proof. vm_compute. repeat split; reflexivity. Qed.

(** On the paths where no rotation fails the counters do move: by one
    line and by the length of the payload. *)
Lemma count_write_counts size s :
  exists s', count_write size s = Done tt s' /\
    curLines (hd s') = wrap64 (curLines (hd s) + 1) /\
    curSize (hd s') = wrap64 (curSize (hd s) + size) /\
    os s' = os s.
Proof. eexists. split; [reflexivity|]. simpl. auto. Qed.

(** ** The retention sweep: what it deletes *)

Lemma wrap64_small z : - 2 ^ 63 <= z < 2 ^ 63 -> wrap64 z = z.
Proof. intros H. unfold wrap64. rewrite Z.mod_small; lia. Qed.

Lemma swept_nothing s : swept (fun _ => False) s s.
Proof. unfold swept. naive_solver. Qed.

Lemma swept_weaken (D D' : string -> Prop) s s' :
  (forall p, D p <-> D' p) -> swept D s s' -> swept D' s s'.
Proof.
  intros HD (Hh & Hn & Hl & H1 & H2 & H3). unfold swept.
  repeat split; auto.
  - intros p Hp. apply H1, HD, Hp.
  - intros p Hp. apply H2. rewrite HD. exact Hp.
Qed.

Lemma swept_trans (D1 D2 : string -> Prop) s s1 s2 :
  swept D1 s s1 -> swept D2 s1 s2 -> swept (fun p => D1 p \/ D2 p) s s2.
Proof.
  intros (Hh & Hn & Hl & H1 & H2 & H3) (Hh' & Hn' & Hl' & H1' & H2' & H3').
  unfold swept. repeat split; try congruence.
  - intros p [Hp|Hp]; [|auto].
    destruct (H3' p) as [E|E]; [exact E|]. rewrite E. auto.
  - intros p Hp. rewrite H2', H2; tauto.
  - intros p. destruct (H3' p) as [E|E]; [auto|].
    rewrite E. apply H3.
Qed.

(** One call of the function literal on an entry whose [lstat]
    succeeded. *)
Lemma deleteOldLog_fn_entry path i err s :
  locked (os s) = ∅ ->
  exists s', deleteOldLog_fn path (Some i) err s = Done None s' /\
    swept (fun p => p = path /\ expired (hd s) (now (os s)) path i = true) s s'.
Proof.
  intros Hl. unfold deleteOldLog_fn, recover, deleteOldLog_body, bind,
    get_handler, time_Now, ret, expired.
  destruct (negb (IsDir i)
            && (ModTime i <? wrap64 (Unix (now (os s))
                                     - wrap64 (60 * 60 * 24 * MaxDays (hd s)))));
    cbn [andb].
  2:{ eexists. split; [reflexivity|].
      eapply swept_weaken; [|apply swept_nothing]. naive_solver. }
  destruct (strings_HasPrefix (filepath_Base path)
              (filepath_Base (FilePath (hd s)))).
  2:{ eexists. split; [reflexivity|].
      eapply swept_weaken; [|apply swept_nothing]. naive_solver. }
  unfold os_Remove. rewrite Hl.
  destruct (decide (path ∈ (∅ : gset string))) as [Hin|_]; [set_solver|].
  destruct (fs (os s) !! path) as [f|] eqn:Hf.
  - eexists. split; [reflexivity|]. unfold swept. cbn.
    repeat split; auto.
    + intros p [-> _]. apply lookup_delete_eq.
    + intros p Hp. apply lookup_delete_ne. naive_solver.
    + intros p. destruct (decide (path = p)) as [->|Hne].
      * left. apply lookup_delete_eq.
      * right. apply lookup_delete_ne. exact Hne.
  - eexists. split; [reflexivity|]. unfold swept.
    repeat split; auto. intros p [-> _]. exact Hf.
Qed.

(** A directory entry itself is never deleted. *)
Lemma deleteOldLog_fn_directory path size mtime err s :
  deleteOldLog_fn path (Some (mkFileInfo size mtime true)) err s = Done None s.
Proof. reflexivity. Qed.

Lemma doomed_app h t l1 l2 p :
  doomed h t ((l1 ++ l2)%list) p <-> doomed h t l1 p \/ doomed h t l2 p.
Proof. unfold doomed. setoid_rewrite elem_of_app. naive_solver. Qed.

Lemma doomed_nil h t p : doomed h t [] p <-> False.
Proof. unfold doomed. split; [|tauto]. intros (i & Hi & _). inversion Hi. Qed.

Lemma doomed_singleton h t q i p :
  doomed h t [(q, i)] p <-> p = q /\ expired h t q i = true.
Proof.
  unfold doomed. split.
  - intros (j & Hj & He). apply list_elem_of_singleton in Hj.
    injection Hj as -> ->. auto.
  - intros [-> He]. exists i. split; [apply list_elem_of_singleton; reflexivity|exact He].
Qed.

Lemma doomed_directory h t q size mtime l p :
  doomed h t ((q, mkFileInfo size mtime true) :: l) p <-> doomed h t l p.
Proof.
  change ((q, mkFileInfo size mtime true) :: l)
    with (([(q, mkFileInfo size mtime true)] ++ l)%list).
  rewrite doomed_app, doomed_singleton. unfold expired. cbn.
  intuition discriminate.
Qed.

(** The walk over a tree without failed [lstat]s visits every entry and
    deletes the expired ones. *)
Lemma walk_sweeps t : forall s,
  complete t = true -> locked (os s) = ∅ ->
  exists s', walk deleteOldLog_fn t s = Done None s' /\
    swept (doomed (hd s) (now (os s)) (entries t)) s s'.
Proof.
  induction t as [path e|path size mtime|path size mtime e
                  |path size mtime children IH] using tree_nested_ind;
    intros s Hc Hl; cbn [walk entries].
  - discriminate Hc.
  - destruct (deleteOldLog_fn_entry path (mkFileInfo size mtime false) None s Hl)
      as (s' & Hrun & Hs).
    exists s'. split; [exact Hrun|].
    eapply swept_weaken; [|exact Hs]. intros p. rewrite doomed_singleton. tauto.
  - exists s. split; [reflexivity|].
    eapply swept_weaken; [|apply swept_nothing].
    intros p. rewrite doomed_directory, doomed_nil. tauto.
  - unfold bind at 1. rewrite deleteOldLog_fn_directory.
    cbn [complete] in Hc.
    assert (exists s',
      (fix each (l : list tree) : M (option error) :=
         match l with
         | [] => ret None
         | c :: l' =>
             let! err := walk deleteOldLog_fn c in
             match err with
             | Some e =>
                 if skippable c && bool_decide (e = SkipDir)
                 then each l' else ret (Some e)
             | None => each l'
             end
         end) children s = Done None s' /\
      swept (doomed (hd s) (now (os s)) (flat_map entries children)) s s')
      as (s' & Hrun & Hs).
    { clear path size mtime. revert s Hl Hc.
      induction IH as [|c l Hchild _ IHl]; intros s Hl Hc.
      - exists s. split; [reflexivity|].
        eapply swept_weaken; [|apply swept_nothing].
        intros p. cbn. rewrite doomed_nil. tauto.
      - cbn [forallb] in Hc. apply andb_prop in Hc as [Hc1 Hc2].
        destruct (Hchild s Hc1 Hl) as (s1 & Hrun1 & Hs1).
        assert (Hl1 : locked (os s1) = ∅).
        { destruct Hs1 as (_ & _ & E & _). congruence. }
        destruct (IHl s1 Hl1 Hc2) as (s2 & Hrun2 & Hs2).
        exists s2. split.
        + unfold bind at 1. rewrite Hrun1. exact Hrun2.
        + destruct Hs1 as (Hh & Hn & Hrest). rewrite Hh, Hn in Hs2.
          eapply swept_weaken;
            [|exact (swept_trans _ _ s s1 s2 (conj Hh (conj Hn Hrest)) Hs2)].
          intros p. cbn [flat_map]. rewrite doomed_app. tauto. }
    exists s'. split; [exact Hrun|].
    eapply swept_weaken; [|exact Hs].
    intros p. rewrite doomed_directory. tauto.
Qed.

(** [deleteOldLog] over such a tree. *)
Lemma deleteOldLog_sweeps dir s :
  complete dir = true -> locked (os s) = ∅ ->
  exists s', deleteOldLog dir s = Done tt s' /\
    swept (doomed (hd s) (now (os s)) (entries dir)) s s'.
Proof.
  intros Hc Hl. destruct (walk_sweeps dir s Hc Hl) as (s' & Hrun & Hs).
  exists s'. split; [|exact Hs].
  unfold deleteOldLog, filepath_Walk, bind. rewrite Hrun. reflexivity.
Qed.

Lemma expired_iff h t p i :
  - 2 ^ 63 <= 86400 * MaxDays h < 2 ^ 63 ->
  - 2 ^ 63 <= Unix t - 86400 * MaxDays h < 2 ^ 63 ->
  expired h t p i = true <->
  IsDir i = false /\
  strings_HasPrefix (filepath_Base p) (filepath_Base (FilePath h)) = true /\
  ModTime i < Unix t - 86400 * MaxDays h.
Proof.
  intros H1 H2. unfold expired.
  change (60 * 60 * 24 * MaxDays h) with (86400 * MaxDays h).
  rewrite (wrap64_small _ H1), (wrap64_small _ H2).
  rewrite !andb_true_iff, negb_true_iff, Z.ltb_lt. tauto.
Qed.

(** C7: over a directory walk in which no [lstat] fails and no removal
    is refused, and without overflow of the 64-bit age computation, the
    sweep deletes exactly the entries that are not directories, whose
    base name starts with the base name of the live file and whose
    modification time is earlier than now minus [MaxDays] days; every
    other path, in particular one without the prefix, keeps its file. *)
Theorem deleteOldLog_deletes_exactly_old_logs s dir :
  complete dir = true ->
  locked (os s) = ∅ ->
  - 2 ^ 63 <= 86400 * MaxDays (hd s) < 2 ^ 63 ->
  - 2 ^ 63 <= Unix (now (os s)) - 86400 * MaxDays (hd s) < 2 ^ 63 ->
  exists s', deleteOldLog dir s = Done tt s' /\
    forall p,
      (old_log (hd s) (now (os s)) dir p -> fs (os s') !! p = None) /\
      (~ old_log (hd s) (now (os s)) dir p -> fs (os s') !! p = fs (os s) !! p).
Proof.
  intros Hc Hl H1 H2.
  destruct (deleteOldLog_sweeps dir s Hc Hl) as (s' & Hrun & Hs).
  exists s'. split; [exact Hrun|].
  assert (HD : forall p, doomed (hd s) (now (os s)) (entries dir) p
                         <-> old_log (hd s) (now (os s)) dir p).
  { intros p. unfold doomed, old_log.
    split; intros (i & Hi & He); exists i; (split; [exact Hi|]);
      apply (expired_iff _ _ _ _ H1 H2); exact He. }
  destruct Hs as (_ & _ & _ & Hdel & Hkeep & _).
  intros p. split; intros Hp.
  - apply Hdel, HD, Hp.
  - apply Hkeep. rewrite HD. exact Hp.
Qed.

Lemma deleteOldLog_deletes_exactly_old_logs_witness :
  exists s', deleteOldLog log_directory monthly_handler = Done tt s' /\
    forall p,
      (old_log (hd monthly_handler) (now (os monthly_handler)) log_directory p ->
       fs (os s') !! p = None) /\
      (~ old_log (hd monthly_handler) (now (os monthly_handler)) log_directory p ->
       fs (os s') !! p = fs (os monthly_handler) !! p).
Proof.
  apply (deleteOldLog_deletes_exactly_old_logs monthly_handler log_directory).
  - reflexivity.
  - reflexivity.
  - simpl. lia.
  - simpl. lia.
Defined.

(** The retention example of the specification, evaluated: of the files
    aged 1, 10 and 40 days only the last is deleted (and the one in the
    subdirectory, found by the recursive walk); the file without the
    prefix stays. *)
Example sweep_thirty_days :
  (map fst (map_to_list (fs (os (state_of (deleteOldLog log_directory monthly_handler))))))
  ≡ₚ [ "logs/app.log"; "logs/app.log.2024-01-04.001";
       "logs/app.log.2023-12-26.001"; "logs/other.log" ].
Proof. vm_compute. by apply (bool_decide_unpack _). Qed.

(** ** The retention sweep: failures of single entries *)

(** A refused removal is a skip: the function literal still returns nil
    and the walk goes on. *)
Lemma deleteOldLog_fn_never_fails_on_entry path i err s :
  exists s', deleteOldLog_fn path (Some i) err s = Done None s' /\ hd s' = hd s.
Proof.
  unfold deleteOldLog_fn, recover, deleteOldLog_body, bind, get_handler,
    time_Now, ret, os_Remove.
  repeat case_match; simplify_eq; eauto.
Qed.

(** A failed [lstat] hands the function literal a nil [info]; the panic
    is recovered into an error, which it returns. *)
Lemma deleteOldLog_fn_fails_on_missing path err s :
  exists e, deleteOldLog_fn path None err s = Done (Some e) s /\ e <> SkipDir.
Proof. eexists. split; [reflexivity|discriminate]. Qed.

(** C6 at a failing input: one entry disappears mid-walk.  The panic on
    its nil [info] is recovered but turned into a returned error, which
    ends the walk: the 40-day-old file after it is never examined and
    stays.  ([deleteOldLog] itself drops the error of [filepath.Walk], so
    nothing reaches its caller.) *)
Theorem vanished_entry_aborts_the_sweep :
  (exists e, result_of (filepath_Walk log_directory_racing deleteOldLog_fn monthly_handler)
             = Some (Some e)) /\
  result_of (deleteOldLog log_directory_racing monthly_handler) = Some tt /\
  content <$> fs (os (state_of (deleteOldLog log_directory_racing monthly_handler)))
                !! "logs/app.log.2023-11-26.001" = Some "old" /\
  fs (os (state_of (deleteOldLog log_directory monthly_handler)))
    !! "logs/app.log.2023-11-26.001" = None.
Proof.
  split; [eexists; vm_compute; reflexivity|].
  vm_compute. repeat split; reflexivity.
Qed.

(** A removal that is refused does not stop the sweep. *)
Example refused_removal_is_skipped :
  let s := mkState (NewDailyRotateHandler "logs/app.log" 30)
             (mkWorld log_files day5 [] [] false 0 None None None None None
                {[ "logs/app.log.2023-11-26.001" ]}) in
  (map fst (map_to_list (fs (os (state_of (deleteOldLog log_directory s))))))
  ≡ₚ [ "logs/app.log"; "logs/app.log.2024-01-04.001";
       "logs/app.log.2023-12-26.001"; "logs/app.log.2023-11-26.001";
       "logs/other.log" ].
Proof. vm_compute. by apply (bool_decide_unpack _). Qed.

(** ** Handlers built with a line or size threshold keep no history *)

Lemma rotated_twice_reachable :
  reachable (NewSizeRotateHandler "logs/app.log" 4) rotated_twice.
Proof.
  unfold rotated_twice.
  apply (reach_env _ (state_of (Write "three" _))).
  do 3 apply reach_Write. apply reach_Init. apply reach_start.
Qed.

(** Evaluated: both rotated files exist after the two rotations, and the
    sweep that the second rotation starts, run a second later, removes
    them (and the live file, which also carries the prefix). *)
Example size_handler_keeps_no_rotated_file :
  map fst (map_to_list (fs (os rotated_twice)))
    ≡ₚ [ "logs/app.log"; "logs/app.log.2024-01-05.001";
         "logs/app.log.2024-01-05.002" ] /\
  sweeps (os (state_of (Write "three" (state_of (Write "two22" (state_of (Write "one11"
     (state_of (Init (mkState (NewSizeRotateHandler "logs/app.log" 4)
                        (quiet ∅ day5)))))))))))
    = 2%nat /\
  map_to_list (fs (os (state_of (deleteOldLog rotated_twice_directory rotated_twice))))
    = [].
Proof.
  vm_compute. split; [by apply (bool_decide_unpack _)|]. split; reflexivity.
Qed.

(** ** Rotation: the name of the rotated file *)

Example fmt_03d_pads :
  fmt_03d 1 = "001" /\ fmt_03d 42 = "042" /\ fmt_03d 999 = "999".
Proof. repeat split; reflexivity. Qed.

(** A stored error ends the loop. *)
Lemma probe_stops k path num fname e s :
  probe k path num fname (Some e) s = Done (num, fname, Some e) s.
Proof. destruct k; reflexivity. Qed.

(** One turn of the loop. *)
Lemma probe_step k path num fname s :
  num <= 999 ->
  probe (S k) path num fname None s =
  probe k path (num + 1) (path +:+ rotated_suffix (Format_date (now (os s))) num)
    (match fs (os s) !! (path +:+ rotated_suffix (Format_date (now (os s))) num) with
     | Some _ => None
     | None => Some (PathError "lstat"
                       (path +:+ rotated_suffix (Format_date (now (os s))) num) ENOENT)
     end) s.
Proof.
  intros Hn. cbn [probe is_nil andb].
  assert (E : (num <=? 999) = true) by (apply Z.leb_le; exact Hn). rewrite E.
  unfold bind, time_Now, os_Lstat.
  destruct (fs (os s) !! _); reflexivity.
Qed.

(** The loop either finds every name from [num] to 999 taken, or stops
    at the first free one. *)
Lemma probe_cases k : forall num fname s,
  num + Z.of_nat k = 1000 ->
  (exists f', probe k (FilePath (hd s)) num fname None s = Done (1000, f', None) s /\
     forall m, num <= m <= 999 -> fs (os s) !! rotated_name s m <> None)
  \/ (exists n, num <= n <= 999 /\ fs (os s) !! rotated_name s n = None /\
        (forall m, num <= m < n -> fs (os s) !! rotated_name s m <> None) /\
        probe k (FilePath (hd s)) num fname None s =
        Done (n + 1, rotated_name s n,
              Some (PathError "lstat" (rotated_name s n) ENOENT)) s).
Proof.
  induction k as [|k IH]; intros num fname s Hk.
  - left. exists fname. split.
    + cbn. unfold ret. do 3 f_equal. lia.
    + intros m Hm. lia.
  - rewrite probe_step by lia.
    change (FilePath (hd s) +:+ rotated_suffix (Format_date (now (os s))) num)
      with (rotated_name s num).
    destruct (fs (os s) !! rotated_name s num) as [f|] eqn:Hf.
    + destruct (IH (num + 1) (rotated_name s num) s ltac:(lia))
        as [(f' & Hrun & Hall)|(n & Hn & Hfree & Hbelow & Hrun)].
      * left. exists f'. split; [exact Hrun|].
        intros m Hm. destruct (decide (m = num)) as [->|Hne]; [congruence|].
        apply Hall. lia.
      * right. exists n. split; [lia|]. split; [exact Hfree|]. split; [|exact Hrun].
        intros m Hm. destruct (decide (m = num)) as [->|Hne]; [congruence|].
        apply Hbelow. lia.
    + right. exists num. split; [lia|]. split; [exact Hf|]. split.
      * intros m Hm. lia.
      * apply probe_stops.
Qed.

Lemma length_append s1 s2 :
  String.length (s1 +:+ s2) = (String.length s1 + String.length s2)%nat.
Proof. induction s1 as [|c s1 IH]; simpl; [reflexivity|]. rewrite IH. reflexivity. Qed.

Lemma rotated_name_fresh s n : rotated_name s n <> FilePath (hd s).
Proof.
  unfold rotated_name. intros E.
  apply (f_equal String.length) in E.
  rewrite !length_append in E. simpl in E. lia.
Qed.

Lemma fmt_03d_three_digits n : 1 <= n <= 999 -> String.length (fmt_03d n) = 3%nat.
Proof.
  intros Hn.
  assert (H : forallb (fun k => Nat.eqb (String.length (fmt_03d (Z.of_nat k))) 3)
                (seq 1 999) = true) by (vm_compute; reflexivity).
  rewrite forallb_forall in H.
  specialize (H (Z.to_nat n)). rewrite Z2Nat.id in H by lia.
  apply Nat.eqb_eq, H, in_seq. lia.
Qed.

Lemma DoRotate_exhausted s f k fname :
  fs (os s) !! FilePath (hd s) = Some f ->
  probe 999 (FilePath (hd s)) 1 EmptyString None s = Done (k, fname, None) s ->
  DoRotate s =
  Done (Some (errors_New ("rotate: cannot find free log number to rename "
                          +:+ FilePath (hd s) +:+ newline))) s.
Proof.
  intros Hf Hrun. unfold DoRotate, bind, get_handler, os_Lstat. cbv beta.
  rewrite Hf. cbv beta iota. rewrite Hrun. reflexivity.
Qed.

Lemma DoRotate_found s f k fname e :
  fs (os s) !! FilePath (hd s) = Some f ->
  probe 999 (FilePath (hd s)) 1 EmptyString None s = Done (k, fname, Some e) s ->
  DoRotate s =
  match fault_rename (os s) with
  | Some c =>
      Done (Some (errors_New ("Rotate: "
                              +:+ Error (LinkError "rename" (FilePath (hd s)) fname c)
                              +:+ newline)))
        (mkState (set_logFile (File_Close (logFile (hd s))) (hd s)) (os s))
  | None =>
      match Init (renamed s f fname) with
      | Done _ s3 => Done None (mkState (hd s3) (add_sweep (os s3)))
      | Panicked p s3 => Panicked p s3
      end
  end.
Proof.
  intros Hf Hrun. unfold DoRotate, bind, get_handler, os_Lstat. cbv beta.
  rewrite Hf. cbv beta iota. rewrite Hrun. cbv beta iota.
  unfold modify_handler, os_Rename. cbn [hd os].
  destruct (fault_rename (os s)); [reflexivity|].
  rewrite Hf. fold (renamed s f fname).
  destruct (Init (renamed s f fname)); reflexivity.
Qed.

(** Without a live file there is nothing to rotate: [DoRotate] returns
    nil and changes nothing. *)
Lemma DoRotate_without_live_file s :
  fs (os s) !! FilePath (hd s) = None -> DoRotate s = Done None s.
Proof.
  intros Hf. unfold DoRotate, bind, get_handler, os_Lstat. cbv beta.
  rewrite Hf. reflexivity.
Qed.

Lemma Init_same_env s : same_env (os s) (os (state_of (Init s))).
Proof.
  unfold same_env.
  unfold Init, createLogFile, SetLogFile, initLogFile, os_OpenFile, File_Stat,
    ioutil_ReadFile, time_Now, modify_handler, get_handler, bind, ret, panic.
  destruct s as [h w]. cbn.
  repeat (case_match; simplify_eq; cbn in * ).
  all: repeat split; congruence.
Qed.

(** A rotation whose loop stopped at the free name of number [n], in a
    world where no system call fails. *)
Lemma DoRotate_to_free_name s f n :
  FilePath (hd s) <> EmptyString ->
  fs (os s) !! FilePath (hd s) = Some f ->
  calm (os s) ->
  probe 999 (FilePath (hd s)) 1 EmptyString None s =
    Done (n + 1, rotated_name s n,
          Some (PathError "lstat" (rotated_name s n) ENOENT)) s ->
  exists s', DoRotate s = Done None s' /\
    fs (os s') !! rotated_name s n = Some f /\
    fs (os s') !! FilePath (hd s) = Some (mkfile EmptyString (Unix (now (os s))) false) /\
    logFile (hd s') = Some (mkFile (FilePath (hd s)) false) /\
    FilePath (hd s') = FilePath (hd s) /\
    curSize (hd s') = 0 /\ curLines (hd s') = 0 /\
    openDate (hd s') = Day (now (os s)) /\
    sweeps (os s') = S (sweeps (os s)) /\
    stderr (os s') = stderr (os s) /\
    now (os s') = now (os s) /\
    calm (os s').
Proof.
  intros Hpath Hf Hcalm Hrun.
  pose proof (keeps_config_DoRotate s) as Hcfg.
  rewrite (DoRotate_found s f _ _ _ Hf Hrun) in *.
  destruct Hcalm as (Ho & Hs & Hr & Hren & Hw). rewrite Hren in *.
  pose proof (Init_cases (renamed s f (rotated_name s n))) as HI.
  pose proof (Init_same_env (renamed s f (rotated_name s n))) as HE.
  assert (Hgone : fs (os (renamed s f (rotated_name s n))) !! FilePath (hd s) = None).
  { cbn. rewrite lookup_insert_ne by apply rotated_name_fresh.
    apply lookup_delete_eq. }
  destruct (Init (renamed s f (rotated_name s n))) as [u s3|p s3].
  2:{ exfalso. unfold misconfigured, open_fails, seeding_fails in HI.
      cbn [renamed hd os FilePath set_logFile set_fs fault_open fault_fstat
           fault_readfile fs] in HI, Hgone.
      destruct HI as [HI|[[HI|(g & Hg & _)]|[HI|[HI _]]]]; congruence. }
  destruct HI as [_ (Hlog & g & Hg & _ & Hwas & Hother & Hsize & Hlines & Hday)].
  cbn [renamed hd os FilePath set_logFile] in Hlog, Hg, Hwas, Hother, Hsize, Hlines, Hday.
  cbn [renamed hd os FilePath set_logFile] in Hgone.
  destruct Hwas as [Hwas|[_ ->]]; [congruence|].
  cbn in Hsize, Hlines. cbn [state_of] in HE, Hcfg.
  destruct HE as (E1 & E2 & E3 & E4 & E5 & E6 & E7 & E8 & E9 & E10 & E11).
  cbn [renamed os set_fs now stderr sweeps fault_open fault_fstat fault_readfile
       fault_rename fault_write] in *.
  exists (mkState (hd s3) (add_sweep (os s3))). cbn.
  split; [reflexivity|].
  split. { rewrite Hother by apply rotated_name_fresh. apply lookup_insert_eq. }
  split; [exact Hg|].
  split; [exact Hlog|].
  split. { unfold config in Hcfg. cbn in Hcfg. congruence. }
  split; [exact Hsize|]. split; [exact Hlines|]. split; [rewrite Hday; reflexivity|].
  split; [congruence|]. split; [congruence|]. split; [congruence|].
  unfold calm. cbn. repeat split; congruence.
Qed.

(** With a free name among the 999, the loop stops at one. *)
Lemma probe_finds_a_free_name s :
  (exists n, 1 <= n <= 999 /\ fs (os s) !! rotated_name s n = None) ->
  exists n, 1 <= n <= 999 /\
    probe 999 (FilePath (hd s)) 1 EmptyString None s =
      Done (n + 1, rotated_name s n,
            Some (PathError "lstat" (rotated_name s n) ENOENT)) s.
Proof.
  intros (n0 & Hn0 & Hfree0).
  destruct (probe_cases 999 1 EmptyString s ltac:(lia))
    as [(f' & Hrun & Hall)|(n & Hn & Hfree & Hbelow & Hrun)].
  - exfalso. exact (Hall n0 Hn0 Hfree0).
  - exists n. split; [exact Hn|exact Hrun].
Qed.

Lemma crowded_is_full n :
  1 <= n <= 999 -> fs (os names_exhausted) !! rotated_name names_exhausted n <> None.
Proof.
  intros Hn.
  assert (H : forallb (fun k => bool_decide (is_Some
                         (fs (os names_exhausted)
                            !! rotated_name names_exhausted (Z.of_nat k))))
                (seq 1 999) = true) by (vm_compute; reflexivity).
  rewrite forallb_forall in H.
  specialize (H (Z.to_nat n)). rewrite Z2Nat.id in H by lia.
  assert (Hin : In (Z.to_nat n) (seq 1 999)) by (apply in_seq; lia).
  apply H, bool_decide_eq_true in Hin. destruct Hin as [x Hx]. congruence.
Qed.


Lemma calm_quiet m t : calm (quiet m t).
Proof. unfold calm. repeat split; reflexivity. Qed.

(** C5: when the live file exists, a rotation that nothing hinders
    succeeds as soon as one of the names 001 to 999 of the day is free,
    and it moves the live file to base path + "." + date + "." + NNN,
    where NNN is three digits and is the first sequence number from 001
    upward whose name had no file; every other file that existed is
    still there unchanged.  Every successful rotation, in whatever
    world, has done exactly that.  When the names 001 to 999 are all
    taken the rotation fails with an error and changes nothing. *)
Theorem DoRotate_takes_first_free_name s f :
  fs (os s) !! FilePath (hd s) = Some f ->
  (FilePath (hd s) <> EmptyString ->
   calm (os s) ->
   (exists n, 1 <= n <= 999 /\ fs (os s) !! rotated_name s n = None) ->
   exists s' n, DoRotate s = Done None s' /\
     1 <= n <= 999 /\ String.length (fmt_03d n) = 3%nat /\
     (forall m, 1 <= m < n -> fs (os s) !! rotated_name s m <> None) /\
     fs (os s) !! rotated_name s n = None /\
     fs (os s') !! rotated_name s n = Some f /\
     (forall p g, p <> FilePath (hd s) -> fs (os s) !! p = Some g ->
                  fs (os s') !! p = Some g))
  /\ (forall s', DoRotate s = Done None s' ->
       exists n, 1 <= n <= 999 /\ String.length (fmt_03d n) = 3%nat /\
         (forall m, 1 <= m < n -> fs (os s) !! rotated_name s m <> None) /\
         fs (os s) !! rotated_name s n = None /\
         fs (os s') !! rotated_name s n = Some f /\
         (forall p g, p <> FilePath (hd s) -> fs (os s) !! p = Some g ->
                      fs (os s') !! p = Some g))
  /\ ((forall n, 1 <= n <= 999 -> fs (os s) !! rotated_name s n <> None) ->
      exists e, DoRotate s = Done (Some e) s).
Proof.
  intros Hf.
  assert (Hany : forall s', DoRotate s = Done None s' ->
            exists n, 1 <= n <= 999 /\ String.length (fmt_03d n) = 3%nat /\
              (forall m, 1 <= m < n -> fs (os s) !! rotated_name s m <> None) /\
              fs (os s) !! rotated_name s n = None /\
              fs (os s') !! rotated_name s n = Some f /\
              (forall p g, p <> FilePath (hd s) -> fs (os s) !! p = Some g ->
                           fs (os s') !! p = Some g)).
  { destruct (probe_cases 999 1 EmptyString s ltac:(lia))
      as [(f' & Hrun & Hall)|(n & Hn & Hfree & Hbelow & Hrun)].
    - rewrite (DoRotate_exhausted s f _ _ Hf Hrun). intros s' [=].
    - rewrite (DoRotate_found s f _ _ _ Hf Hrun).
      intros s' Hdone. destruct (fault_rename (os s)); [discriminate Hdone|].
      pose proof (Init_cases (renamed s f (rotated_name s n))) as HI.
      destruct (Init (renamed s f (rotated_name s n))) as [u s3|p s3];
        [|discriminate Hdone].
      injection Hdone as <-. cbn [os hd fs add_sweep].
      destruct HI as [_ (_ & g & _ & _ & _ & Hother & _)].
      cbn [renamed hd os fs set_fs FilePath set_logFile] in Hother.
      exists n. split; [exact Hn|]. split; [apply fmt_03d_three_digits; exact Hn|].
      split; [exact Hbelow|]. split; [exact Hfree|]. split.
      + rewrite Hother by apply rotated_name_fresh. apply lookup_insert_eq.
      + intros p g' Hp Hg. rewrite Hother by exact Hp.
        rewrite lookup_insert_ne by congruence.
        rewrite lookup_delete_ne by congruence. exact Hg. }
  split; [|split; [exact Hany|]].
  - intros Hpath Hcalm Hfree.
    destruct (probe_finds_a_free_name s Hfree) as (k & Hk & Hrun).
    destruct (DoRotate_to_free_name s f k Hpath Hf Hcalm Hrun) as (s' & Hrot & _).
    destruct (Hany s' Hrot) as (n & Hn).
    exists s', n. split; [exact Hrot|exact Hn].
  - intros Hall.
    destruct (probe_cases 999 1 EmptyString s ltac:(lia))
      as [(f' & Hrun & _)|(n & Hn & Hfree & _)].
    + rewrite (DoRotate_exhausted s f _ _ Hf Hrun). eexists. reflexivity.
    + exfalso. exact (Hall n Hn Hfree).
Qed.

Lemma DoRotate_takes_first_free_name_witness :
  (exists s', DoRotate rotated_twice_at_once = Done None s' /\
     fs (os s') !! "logs/app.log.2024-01-05.003" = Some (regular "three" 1704412800) /\
     (forall p g, p <> "logs/app.log" ->
                  fs (os rotated_twice_at_once) !! p = Some g ->
                  fs (os s') !! p = Some g))
  /\ (exists e, DoRotate names_exhausted = Done (Some e) names_exhausted).
Proof.
  split.
  - destruct (DoRotate_takes_first_free_name rotated_twice_at_once
                (regular "three" 1704412800)) as (Hgo & _ & _).
    + vm_compute. reflexivity.
    + destruct Hgo as (s' & n & Hrun & Hn & _ & Hbelow & Hfree & Hmoved & Hkept).
      * vm_compute. discriminate.
      * vm_compute. repeat split; reflexivity.
      * exists 3. split; [lia|vm_compute; reflexivity].
      * assert (E : n = 3).
        { destruct (Z.eq_dec n 1) as [->|]; [vm_compute in Hfree; discriminate Hfree|].
          destruct (Z.eq_dec n 2) as [->|]; [vm_compute in Hfree; discriminate Hfree|].
          destruct (Z.eq_dec n 3) as [E|]; [exact E|].
          exfalso. apply (Hbelow 3); [lia|vm_compute; reflexivity]. }
        subst n.
        assert (Ename : rotated_name rotated_twice_at_once 3
                        = "logs/app.log.2024-01-05.003") by (vm_compute; reflexivity).
        assert (Epath : FilePath (hd rotated_twice_at_once) = "logs/app.log")
          by (vm_compute; reflexivity).
        rewrite Ename in Hmoved. rewrite Epath in Hkept.
        exists s'. split; [exact Hrun|]. split; [exact Hmoved|exact Hkept].
  - destruct (DoRotate_takes_first_free_name names_exhausted
                (regular "0123456789" 1704412800)) as (_ & _ & Hfull).
    + vm_compute. reflexivity.
    + apply Hfull. exact crowded_is_full.
Defined.



(** Evaluated: the rotation of [past_threshold] starts its first sweep;
    run a second later, the sweep removes the file just rotated and the
    live file; run within the second of the rotation, it removes
    nothing. *)
Example sweep_after_one_rotation :
  let s1 := state_of (DoRotate past_threshold) in
  sweeps (os s1) = 1%nat /\
  map fst (map_to_list (fs (os s1)))
    ≡ₚ [ "logs/app.log"; "logs/app.log.2024-01-05.001" ] /\
  map_to_list (fs (os (state_of
     (deleteOldLog rotated_once_directory (mkState (hd s1) a_second_later))))) = [] /\
  map fst (map_to_list (fs (os (state_of (deleteOldLog rotated_once_directory s1)))))
    ≡ₚ [ "logs/app.log"; "logs/app.log.2024-01-05.001" ].
Proof.
  vm_compute. split; [reflexivity|].
  split; [by apply (bool_decide_unpack _)|]. split; [reflexivity|].
  by apply (bool_decide_unpack _).
Qed.


(** Evaluated: two rotations on the same day take 001 and then 002. *)
Example rotations_of_one_day :
  map fst (map_to_list (fs (os rotated_twice)))
    ≡ₚ [ "logs/app.log"; "logs/app.log.2024-01-05.001";
         "logs/app.log.2024-01-05.002" ].
Proof. vm_compute. by apply (bool_decide_unpack _). Qed.

(** * Further properties of the handler and the registry *)

Lemma rotate_due_false size s :
  rotate_due (hd s) (now (os s)) = false ->
  doCheckRotate size s = count_write size s.
Proof.
  intros H. unfold doCheckRotate, bind at 1 2 3, get_handler, time_Now.
  rewrite H. reflexivity.
Qed.

Lemma rotate_due_true size s :
  rotate_due (hd s) (now (os s)) = true ->
  doCheckRotate size s = rotate_then_count size s.
Proof.
  intros H. unfold doCheckRotate, bind at 1 2, get_handler, time_Now.
  rewrite H. reflexivity.
Qed.

Lemma Write_unfold data s :
  Write data s =
  match (if Debug (os s) then fmt_Println data s else Done tt s) with
  | Done _ s1 =>
      match doCheckRotate (len data) s1 with
      | Done _ s2 =>
          match MuxWriter_Write data s2 with
          | Done (_, err) s3 => Done (len data, err) s3
          | Panicked e s3 => Panicked e s3
          end
      | Panicked e s2 => Panicked e s2
      end
  | Panicked e s1 => Panicked e s1
  end.
Proof.
  unfold Write, bind at 1, get_world. unfold bind at 1.
  destruct (Debug (os s)).
  - destruct (fmt_Println data s); [|reflexivity].
    cbv zeta. unfold bind at 1. destruct (doCheckRotate _ _); [|reflexivity].
    unfold bind at 1. destruct (MuxWriter_Write _ _) as [[k e] s3|]; reflexivity.
  - unfold ret at 1. cbv zeta. unfold bind at 1.
    destruct (doCheckRotate _ _); [|reflexivity].
    unfold bind at 1. destruct (MuxWriter_Write _ _) as [[k e] s3|]; reflexivity.
Qed.

Lemma calm_same_env w w' : same_env w w' -> calm w -> calm w'.
Proof. unfold same_env, calm. intuition congruence. Qed.

Lemma len_append a b : len (a +:+ b) = len a + len b.
Proof. unfold len. rewrite length_append. lia. Qed.

Lemma len_nonneg a : 0 <= len a.
Proof. unfold len. lia. Qed.

(** X1: when the live file exists, no system call fails and one of the
    names 001 to 999 of the day is free, [DoRotate] succeeds: the old
    file is under a rotated name, the live path holds a new empty file
    with an open descriptor on it, both counters are 0, the open day is
    today and exactly one sweep has been started. *)
Theorem DoRotate_succeeds s f :
  FilePath (hd s) <> EmptyString ->
  fs (os s) !! FilePath (hd s) = Some f ->
  calm (os s) ->
  (exists n, 1 <= n <= 999 /\ fs (os s) !! rotated_name s n = None) ->
  exists s' n, DoRotate s = Done None s' /\ 1 <= n <= 999 /\
    fs (os s') !! rotated_name s n = Some f /\
    fs (os s') !! FilePath (hd s) = Some (mkfile EmptyString (Unix (now (os s))) false) /\
    logFile (hd s') = Some (mkFile (FilePath (hd s)) false) /\
    FilePath (hd s') = FilePath (hd s) /\
    curSize (hd s') = 0 /\ curLines (hd s') = 0 /\
    openDate (hd s') = Day (now (os s)) /\
    sweeps (os s') = S (sweeps (os s)) /\
    stderr (os s') = stderr (os s) /\
    now (os s') = now (os s) /\
    calm (os s').
Proof.
  intros Hpath Hf Hcalm Hfree.
  destruct (probe_finds_a_free_name s Hfree) as (n & Hn & Hrun).
  destruct (DoRotate_to_free_name s f n Hpath Hf Hcalm Hrun) as (s' & Hrot & Hrest).
  exists s', n. split; [exact Hrot|]. split; [exact Hn|exact Hrest].
Qed.

(** The append of an open descriptor when the disk takes everything. *)
Lemma MuxWriter_Write_open data s f :
  logFile (hd s) = Some (mkFile (FilePath (hd s)) false) ->
  fault_write (os s) = None ->
  fs (os s) !! FilePath (hd s) = Some f ->
  exists s', MuxWriter_Write data s = Done (len data, None) s' /\
    hd s' = hd s /\ same_env (os s) (os s') /\
    fs (os s') !! FilePath (hd s)
      = Some (mkfile (content f +:+ data) (Unix (now (os s))) (isDir f)) /\
    (forall p, p <> FilePath (hd s) -> fs (os s') !! p = fs (os s) !! p).
Proof.
  intros Hlog Hw Hf. unfold MuxWriter_Write, bind, get_handler, File_Write.
  rewrite Hlog. cbn [file_closed file_name]. rewrite Hw.
  eexists. split; [reflexivity|]. cbn.
  split; [reflexivity|]. split; [unfold same_env; repeat split; reflexivity|].
  split.
  - rewrite lookup_alter_eq, Hf. reflexivity.
  - intros p Hp. apply lookup_alter_ne. congruence.
Qed.

Lemma try_rotate_succeeds s s' :
  DoRotate s = Done None s' -> try_rotate s = Done false s'.
Proof.
  intros H. unfold try_rotate, bind at 1, get_handler. unfold bind at 1.
  rewrite H. reflexivity.
Qed.

Lemma wrap64_len_sum a b : a + b < 2 ^ 63 -> 0 <= a -> 0 <= b -> wrap64 (a + b) = a + b.
Proof. intros. apply wrap64_small. lia. Qed.

(** The two steps of [Write] after the debug echo, on a handler whose
    descriptor is open on its file and whose byte count is the size of
    that file. *)
Lemma write_steps data s f :
  FilePath (hd s) <> EmptyString ->
  logFile (hd s) = Some (mkFile (FilePath (hd s)) false) ->
  fs (os s) !! FilePath (hd s) = Some f ->
  isDir f = false ->
  curSize (hd s) = len (content f) ->
  calm (os s) ->
  (rotate_due (hd s) (now (os s)) = true ->
   exists n, 1 <= n <= 999 /\ fs (os s) !! rotated_name s n = None) ->
  len (content f) + len data < 2 ^ 63 ->
  exists s2 s3,
    doCheckRotate (len data) s = Done tt s2 /\
    MuxWriter_Write data s2 = Done (len data, None) s3 /\
    written data f s s3.
Proof.
  intros Hpath Hlog Hf Hd Hsz Hcalm Hfree Hfit.
  unfold written. destruct (rotate_due (hd s) (now (os s))) eqn:Hdue.
  - destruct (probe_finds_a_free_name s (Hfree eq_refl)) as (n & Hn & Hrun).
    destruct (DoRotate_to_free_name s f n Hpath Hf Hcalm Hrun)
      as (s1 & Hrot & Hold & Hnew & Hlog1 & Hpath1 & Hsz1 & Hln1 & Hday1 & _
          & Herr1 & Hnow1 & Hcalm1).
    pose proof (keeps_config_DoRotate s) as Hcfg. rewrite Hrot in Hcfg.
    cbn [state_of] in Hcfg.
    rewrite (rotate_due_true _ _ Hdue). unfold rotate_then_count, bind at 1.
    rewrite (try_rotate_succeeds _ _ Hrot).
    set (s2 := mkState (set_curSize (wrap64 (curSize (hd s1) + len data))
                          (set_curLines (wrap64 (curLines (hd s1) + 1)) (hd s1)))
                       (os s1)).
    assert (Hlog2 : logFile (hd s2) = Some (mkFile (FilePath (hd s2)) false)).
    { cbn. rewrite Hpath1. exact Hlog1. }
    assert (Hf2 : fs (os s2) !! FilePath (hd s2)
                  = Some (mkfile EmptyString (Unix (now (os s))) false)).
    { cbn. rewrite Hpath1. exact Hnew. }
    destruct (MuxWriter_Write_open data s2 _ Hlog2 (proj2 (proj2 (proj2 (proj2 Hcalm1)))) Hf2)
      as (s3 & Hw & Hhd & Henv & Hf3 & Hother).
    exists s2, s3.
    split; [reflexivity|]. split; [exact Hw|].
    rewrite Hhd.
    split; [exact Hcfg|]. split; [exact Hlog1|].
    split.
    { exists (mkfile data (Unix (now (os s1))) false).
      split. { cbn in Hf3. rewrite Hpath1 in Hf3. exact Hf3. }
      split; [reflexivity|]. split; [reflexivity|].
      cbn. rewrite Hsz1. apply wrap64_small. pose proof (len_nonneg data).
      pose proof (len_nonneg (content f)). lia. }
    split; [cbn; rewrite Hln1; reflexivity|].
    split; [exact Hday1|].
    split.
    { exists n. split; [exact Hn|]. rewrite Hother; [exact Hold|].
      cbn. rewrite Hpath1. apply rotated_name_fresh. }
    split; [exact (calm_same_env _ _ Henv Hcalm1)|].
    destruct Henv as (E1 & E & _). cbn in E, E1. split; congruence.
  - rewrite (rotate_due_false _ _ Hdue).
    set (s2 := mkState (set_curSize (wrap64 (curSize (hd s) + len data))
                          (set_curLines (wrap64 (curLines (hd s) + 1)) (hd s)))
                       (os s)).
    assert (Hlog2 : logFile (hd s2) = Some (mkFile (FilePath (hd s2)) false))
      by exact Hlog.
    assert (Hf2 : fs (os s2) !! FilePath (hd s2) = Some f) by exact Hf.
    destruct (MuxWriter_Write_open data s2 _ Hlog2 (proj2 (proj2 (proj2 (proj2 Hcalm)))) Hf2)
      as (s3 & Hw & Hhd & Henv & Hf3 & Hother).
    exists s2, s3.
    split; [reflexivity|]. split; [exact Hw|].
    rewrite Hhd.
    split; [reflexivity|]. split; [exact Hlog|].
    split.
    { exists (mkfile (content f +:+ data) (Unix (now (os s))) (isDir f)).
      split; [exact Hf3|]. split; [exact Hd|]. split; [reflexivity|].
      cbn. rewrite Hsz, len_append. apply wrap64_small.
      pose proof (len_nonneg data). pose proof (len_nonneg (content f)). lia. }
    split; [reflexivity|]. split; [reflexivity|].
    split; [exact Hother|].
    split; [exact (calm_same_env _ _ Henv Hcalm)|].
    destruct Henv as (E1 & E & _). split; [exact E1|exact E].
Qed.

(** A write on an open handler in a world where nothing fails. *)
Lemma Write_leaves_written data s f :
  FilePath (hd s) <> EmptyString ->
  logFile (hd s) = Some (mkFile (FilePath (hd s)) false) ->
  fs (os s) !! FilePath (hd s) = Some f ->
  isDir f = false ->
  curSize (hd s) = len (content f) ->
  calm (os s) ->
  (rotate_due (hd s) (now (os s)) = true ->
   exists n, 1 <= n <= 999 /\ fs (os s) !! rotated_name s n = None) ->
  len (content f) + len data < 2 ^ 63 ->
  exists s', Write data s = Done (len data, None) s' /\ written data f s s'.
Proof.
  intros Hpath Hlog Hf Hd Hsz Hcalm Hfree Hfit.
  rewrite Write_unfold.
  assert (Hsteps : forall t, hd t = hd s -> fs (os t) = fs (os s) ->
            now (os t) = now (os s) -> calm (os t) -> stderr (os t) = stderr (os s) ->
            exists s',
              match doCheckRotate (len data) t with
              | Done _ s2 =>
                  match MuxWriter_Write data s2 with
                  | Done (_, err) s3 => Done (len data, err) s3
                  | Panicked e s3 => Panicked e s3
                  end
              | Panicked e s2 => Panicked e s2
              end = Done (len data, None) s' /\
              written data f s s').
  { intros t Hh Hfs Hnow Hc Herr.
    assert (Hname : forall n, rotated_name t n = rotated_name s n).
    { intros n. unfold rotated_name. rewrite Hh, Hnow. reflexivity. }
    destruct (write_steps data t f) as (s2 & s3 & H1 & H2 & H3);
      try (rewrite ?Hh, ?Hfs, ?Hnow; assumption).
    { rewrite Hh, Hnow. intros Hdue. destruct (Hfree Hdue) as (n & Hn & Hfr).
      exists n. split; [exact Hn|]. rewrite Hname, Hfs. exact Hfr. }
    exists s3. rewrite H1, H2. split; [reflexivity|].
    unfold written, rotated_name in *. rewrite ?Hh, ?Hfs, ?Hnow, ?Herr in H3.
    exact H3. }
  destruct (Debug (os s)).
  - apply (Hsteps (mkState (hd s) (add_stdout (data +:+ newline) (os s))));
      try reflexivity.
    destruct Hcalm as (?&?&?&?&?). unfold calm. cbn. auto.
  - apply (Hsteps s); try reflexivity. exact Hcalm.
Qed.

(** X2: on a handler whose descriptor is open on its file and whose
    byte count is the size of that file, when no system call fails (and
    a rotated name is free if rotation is due), [Write] returns the
    length of the payload and no error.  The live file then holds the
    payload after the old content, or the payload alone after a rotation
    that kept the old file under a rotated name; the byte count is again
    the size of the live file, the line count went up by one or restarts
    at one, and the configuration is unchanged. *)
Theorem Write_appends_and_counts data s f :
  FilePath (hd s) <> EmptyString ->
  logFile (hd s) = Some (mkFile (FilePath (hd s)) false) ->
  fs (os s) !! FilePath (hd s) = Some f ->
  isDir f = false ->
  curSize (hd s) = len (content f) ->
  calm (os s) ->
  (rotate_due (hd s) (now (os s)) = true ->
   exists n, 1 <= n <= 999 /\ fs (os s) !! rotated_name s n = None) ->
  len (content f) + len data < 2 ^ 63 ->
  exists s', Write data s = Done (len data, None) s' /\
    config (hd s') = config (hd s) /\
    logFile (hd s') = Some (mkFile (FilePath (hd s)) false) /\
    (exists f', fs (os s') !! FilePath (hd s) = Some f' /\ isDir f' = false /\
       content f' = (if rotate_due (hd s) (now (os s)) then data
                     else content f +:+ data) /\
       curSize (hd s') = len (content f')) /\
    curLines (hd s') = (if rotate_due (hd s) (now (os s)) then 1
                        else wrap64 (curLines (hd s) + 1)) /\
    openDate (hd s') = (if rotate_due (hd s) (now (os s)) then Day (now (os s))
                        else openDate (hd s)) /\
    (if rotate_due (hd s) (now (os s))
     then exists n, 1 <= n <= 999 /\ fs (os s') !! rotated_name s n = Some f
     else forall p, p <> FilePath (hd s) -> fs (os s') !! p = fs (os s) !! p) /\
    calm (os s') /\ now (os s') = now (os s) /\ stderr (os s') = stderr (os s).
Proof.
  intros Hpath Hlog Hf Hd Hsz Hcalm Hfree Hfit.
  destruct (Write_leaves_written data s f Hpath Hlog Hf Hd Hsz Hcalm Hfree Hfit)
    as (s' & Hrun & Hw).
  exists s'. split; [exact Hrun|exact Hw].
Qed.

(** X3: when rotation is due but every name 001 to 999 of the day is
    taken, [Write] prints one line to the error stream, renames nothing,
    keeps the descriptor open, appends the payload to the live file and
    returns its length without an error. *)
Theorem Write_survives_name_exhaustion data s f :
  Debug (os s) = false ->
  logFile (hd s) = Some (mkFile (FilePath (hd s)) false) ->
  fs (os s) !! FilePath (hd s) = Some f ->
  fault_write (os s) = None ->
  rotate_due (hd s) (now (os s)) = true ->
  (forall n, 1 <= n <= 999 -> fs (os s) !! rotated_name s n <> None) ->
  exists s' line,
    Write data s = Done (len data, None) s' /\
    fs (os s') !! FilePath (hd s)
      = Some (mkfile (content f +:+ data) (Unix (now (os s))) (isDir f)) /\
    (forall p, p <> FilePath (hd s) -> fs (os s') !! p = fs (os s) !! p) /\
    logFile (hd s') = Some (mkFile (FilePath (hd s)) false) /\
    stderr (os s') = (stderr (os s) ++ [line])%list /\
    sweeps (os s') = sweeps (os s).
Proof.
  intros Hdbg Hlog Hf Hw Hdue Hall.
  destruct (probe_cases 999 1 EmptyString s ltac:(lia))
    as [(f' & Hrun & _)|(n & Hn & Hfree & _)].
  2:{ exfalso. exact (Hall n Hn Hfree). }
  rewrite Write_unfold, Hdbg, (rotate_due_true _ _ Hdue).
  unfold rotate_then_count, bind at 1, try_rotate, bind at 1, get_handler.
  unfold bind at 1. rewrite (DoRotate_exhausted s f _ _ Hf Hrun).
  unfold bind at 1, Fprintf_Stderr, modify_world, ret.
  set (s2 := mkState (hd s) (add_stderr _ (os s))).
  destruct (MuxWriter_Write_open data s2 f Hlog Hw Hf)
    as (s3 & Hrun3 & Hhd & Henv & Hf3 & Hother).
  rewrite Hrun3. exists s3. eexists. split; [reflexivity|].
  split; [exact Hf3|]. split; [exact Hother|]. rewrite Hhd.
  split; [exact Hlog|].
  destruct Henv as (_ & E2 & _ & _ & E5 & _). split; [exact E2|exact E5].
Qed.

(** ** Modes *)

(** X4: a handler built by [NewLinesRotateHandler] with threshold N > 0
    attempts rotation exactly when its line count has reached N or the
    day of the month differs from the day recorded at open. *)
Theorem lines_mode_rotation_condition fp N s size :
  0 < N -> reachable (NewLinesRotateHandler fp N) s ->
  doCheckRotate size s =
  (if (N <=? curLines (hd s)) || negb (Day (now (os s)) =? openDate (hd s))
   then rotate_then_count size s
   else count_write size s).
Proof.
  intros HN Hr. apply reachable_config in Hr. unfold config in Hr. cbn in Hr.
  injection Hr as _ HL HS _ HR.
  assert (HN' : (0 <? N) = true) by (apply Z.ltb_lt; exact HN).
  destruct ((N <=? curLines (hd s)) || negb (Day (now (os s)) =? openDate (hd s)))
    eqn:E.
  - apply rotate_due_true. unfold rotate_due. rewrite HR, HL, HS, HN'. cbn.
    rewrite orb_false_r. exact E.
  - apply rotate_due_false. unfold rotate_due. rewrite HR, HL, HS, HN'. cbn.
    rewrite orb_false_r. exact E.
Qed.

(** X5: a handler built by [NewDailyRotateHandler] attempts rotation
    exactly when the day of the month differs from the day recorded at
    open, whatever its counters and its number of days. *)
Theorem daily_mode_rotation_condition fp days s size :
  reachable (NewDailyRotateHandler fp days) s ->
  doCheckRotate size s =
  (if Day (now (os s)) =? openDate (hd s)
   then count_write size s
   else rotate_then_count size s).
Proof.
  intros Hr. apply reachable_config in Hr. unfold config in Hr. cbn in Hr.
  injection Hr as _ HL HS _ HR.
  destruct (Day (now (os s)) =? openDate (hd s)) eqn:E.
  - apply rotate_due_false. unfold rotate_due. rewrite HR, HL, HS, E. reflexivity.
  - apply rotate_due_true. unfold rotate_due. rewrite HR, HL, HS, E. reflexivity.
Qed.

(** X6: no sequence of [Init], [Write] and sweeps, in any environment,
    changes the path, the thresholds, the retention days or the
    rotation switch of a handler. *)
Theorem configuration_is_fixed h0 s :
  reachable h0 s ->
  FilePath (hd s) = FilePath h0 /\ MaxLines (hd s) = MaxLines h0 /\
  MaxSize (hd s) = MaxSize h0 /\ MaxDays (hd s) = MaxDays h0 /\
  Rotatable (hd s) = Rotatable h0.
Proof.
  intros Hr. apply reachable_config in Hr. unfold config in Hr.
  injection Hr as -> -> -> -> ->. auto.
Qed.

(** Any append: it returns, leaves the handler and everything but the
    namespace alone, and changes at most the file under the descriptor's
    name, which it neither creates nor removes. *)
Lemma MuxWriter_Write_frame data s :
  exists r s', MuxWriter_Write data s = Done r s' /\
    hd s' = hd s /\ same_env (os s) (os s') /\
    (forall p, (forall fd, logFile (hd s) = Some fd -> p <> file_name fd) ->
               fs (os s') !! p = fs (os s) !! p) /\
    (forall p, is_Some (fs (os s') !! p) <-> is_Some (fs (os s) !! p)).
Proof.
  unfold MuxWriter_Write, bind, get_handler, File_Write, same_env.
  destruct (logFile (hd s)) as [fd|] eqn:Hlog.
  2:{ do 2 eexists. split; [reflexivity|]. repeat split; auto. }
  destruct (file_closed fd).
  { do 2 eexists. split; [reflexivity|]. repeat split; auto. }
  assert (Hdom : forall p g,
            is_Some (alter g (file_name fd) (fs (os s)) !! p)
            <-> is_Some (fs (os s) !! p)).
  { intros p g. rewrite lookup_alter.
    case_decide; [subst; apply fmap_is_Some|reflexivity]. }
  assert (Hframe : forall p g,
            (forall fd', Some fd = Some fd' -> p <> file_name fd') ->
            alter g (file_name fd) (fs (os s)) !! p = fs (os s) !! p).
  { intros p g Hp. apply lookup_alter_ne. specialize (Hp fd eq_refl). congruence. }
  destruct (fault_write (os s)) as [[n e]|] eqn:Hfw;
    (do 2 eexists; split; [reflexivity|]; cbn;
     split; [reflexivity|]; split; [repeat split; congruence|];
     split; [intros p; apply Hframe|intros p; apply Hdom]).
Qed.

(** X7: a handler built by [NewDefaultHandler] never rotates: every
    [Write] returns (it cannot panic) with the length of the payload,
    starts no sweep, prints nothing to the error stream, and creates
    and removes no file. *)
Theorem default_handler_only_appends fp s data :
  reachable (NewDefaultHandler fp) s ->
  exists err s', Write data s = Done (len data, err) s' /\
    sweeps (os s') = sweeps (os s) /\
    stderr (os s') = stderr (os s) /\
    (forall p, is_Some (fs (os s') !! p) <-> is_Some (fs (os s) !! p)).
Proof.
  intros Hr. apply reachable_config in Hr. unfold config in Hr. cbn in Hr.
  injection Hr as _ _ _ _ HR.
  assert (Hsteps : forall t, hd t = hd s -> fs (os t) = fs (os s) ->
            sweeps (os t) = sweeps (os s) -> stderr (os t) = stderr (os s) ->
            exists err s',
              match doCheckRotate (len data) t with
              | Done _ s2 =>
                  match MuxWriter_Write data s2 with
                  | Done (_, err) s3 => Done (len data, err) s3
                  | Panicked e s3 => Panicked e s3
                  end
              | Panicked e s2 => Panicked e s2
              end = Done (len data, err) s' /\
              sweeps (os s') = sweeps (os s) /\
              stderr (os s') = stderr (os s) /\
              (forall p, is_Some (fs (os s') !! p) <-> is_Some (fs (os s) !! p))).
  { intros t Hh Hfs Hsw Herr.
    rewrite rotate_due_false by (unfold rotate_due; rewrite Hh, HR; reflexivity).
    set (s2 := mkState (set_curSize (wrap64 (curSize (hd t) + len data))
                          (set_curLines (wrap64 (curLines (hd t) + 1)) (hd t)))
                       (os t)).
    change (count_write (len data) t) with (Done tt s2).
    destruct (MuxWriter_Write_frame data s2)
      as ([k err] & s3 & Hrun & _ & Henv & _ & Hdom).
    rewrite Hrun. exists err, s3. split; [reflexivity|].
    destruct Henv as (_ & E2 & _ & _ & E5 & _). cbn in E2, E5, Hdom.
    rewrite Hfs in Hdom.
    split; [congruence|]. split; [congruence|exact Hdom]. }
  rewrite Write_unfold. destruct (Debug (os s)).
  - apply (Hsteps (mkState (hd s) (add_stdout (data +:+ newline) (os s))));
      reflexivity.
  - apply (Hsteps s); reflexivity.
Qed.

(** ** Restart *)

(** X8: [Init] on an existing file, when the system calls succeed,
    returns with a fresh open descriptor, changes no file, and seeds the
    byte count with the size of the file, the open day with today, and
    the line count with 0 for an empty file and with the number of line
    separators plus one otherwise. *)
Theorem Init_reopens_without_touching_files s f :
  FilePath (hd s) <> EmptyString ->
  fs (os s) !! FilePath (hd s) = Some f ->
  isDir f = false ->
  fault_open (os s) = None -> fault_fstat (os s) = None ->
  fault_readfile (os s) = None ->
  exists s', Init s = Done tt s' /\
    fs (os s') = fs (os s) /\
    logFile (hd s') = Some (mkFile (FilePath (hd s)) false) /\
    curSize (hd s') = len (content f) /\
    curLines (hd s') =
      match content f with
      | EmptyString => 0
      | _ => Z.of_nat (count_newlines (content f)) + 1
      end /\
    openDate (hd s') = Day (now (os s)).
Proof.
  intros Hpath Hf Hd Ho Hs Hr.
  pose proof (Init_cases s) as HI.
  destruct (Init s) as [[] s'|e s'].
  - destruct HI as [_ (Hlog & g & Hg & _ & Hwas & Hother & Hsize & Hlines & Hday)].
    destruct Hwas as [Hwas|[Hwas _]]; [|congruence].
    assert (g = f) as -> by congruence.
    assert (Hl : curLines (hd s') =
                 match content f with
                 | EmptyString => 0
                 | _ => Z.of_nat (count_newlines (content f)) + 1
                 end).
    { rewrite Hlines. unfold seeded_lines.
      destruct (content f) as [|c t]; [reflexivity|].
      rewrite Split_newline_length. lia. }
    exists s'. split; [reflexivity|]. split; [|auto].
    apply map_eq. intros p. destruct (decide (p = FilePath (hd s))) as [->|Hne].
    + congruence.
    + apply Hother. exact Hne.
  - exfalso. unfold misconfigured, open_fails, seeding_fails in HI.
    destruct HI as [HI|[[HI|(g & Hg & Hg')]|[HI|[HI _]]]]; congruence.
Qed.

(** ** Close *)

(** X9: after [Close], a [Write] for which no rotation is due returns
    the length of the payload together with the error of writing to a
    closed file, and changes no file. *)
Theorem Write_after_Close_fails data s fd :
  logFile (hd s) = Some fd ->
  rotate_due (hd s) (now (os s)) = false ->
  exists s', Write data (state_of (Close s))
             = Done (len data, Some (PathError "write" (file_name fd) ErrClosed)) s' /\
    fs (os s') = fs (os s) /\
    logFile (hd s') = Some (mkFile (file_name fd) true).
Proof.
  intros Hlog Hdue. rewrite Write_unfold. cbn [Close modify_handler state_of os hd].
  assert (Hsteps : forall t, hd t = set_logFile (File_Close (logFile (hd s))) (hd s) ->
            fs (os t) = fs (os s) -> now (os t) = now (os s) ->
            exists s',
              match doCheckRotate (len data) t with
              | Done _ s2 =>
                  match MuxWriter_Write data s2 with
                  | Done (_, err) s3 => Done (len data, err) s3
                  | Panicked e s3 => Panicked e s3
                  end
              | Panicked e s2 => Panicked e s2
              end = Done (len data, Some (PathError "write" (file_name fd) ErrClosed)) s' /\
              fs (os s') = fs (os s) /\
              logFile (hd s') = Some (mkFile (file_name fd) true)).
  { intros t Hh Hfs Hnow.
    rewrite rotate_due_false by (rewrite Hh, Hnow; exact Hdue).
    unfold count_write, bind, modify_handler, MuxWriter_Write, get_handler,
      File_Write. cbn. rewrite Hh. cbn. rewrite Hlog. cbn.
    eexists. split; [reflexivity|]. cbn. rewrite ?Hlog. auto. }
  destruct (Debug (os s)).
  - apply (Hsteps (mkState _ (add_stdout (data +:+ newline) (os s)))); reflexivity.
  - apply (Hsteps (mkState _ (os s))); reflexivity.
Qed.

(** ** The sweep, whatever fails *)

Lemma same_env_refl w : same_env w w.
Proof. unfold same_env. repeat split; reflexivity. Qed.

Lemma same_env_trans w1 w2 w3 : same_env w1 w2 -> same_env w2 w3 -> same_env w1 w3.
Proof. unfold same_env. intuition congruence. Qed.

Lemma same_env_set_fs m w : same_env w (set_fs m w).
Proof. unfold same_env. repeat split; reflexivity. Qed.

Lemma shrunk_refl D s : shrunk D s s.
Proof. unfold shrunk. split; [reflexivity|]. split; [apply same_env_refl|auto]. Qed.

Lemma shrunk_weaken (D D' : string -> Prop) s s' :
  (forall p, D p -> D' p) -> shrunk D s s' -> shrunk D' s s'.
Proof.
  intros HD (Hh & He & Hp). split; [exact Hh|]. split; [exact He|].
  intros p. destruct (Hp p) as [E|[Hd E]]; [left; exact E|right; auto].
Qed.

Lemma shrunk_trans (D1 D2 : string -> Prop) s s1 s2 :
  shrunk D1 s s1 -> shrunk D2 s1 s2 -> shrunk (fun p => D1 p \/ D2 p) s s2.
Proof.
  intros (Hh & He & Hp) (Hh' & He' & Hp').
  split; [congruence|]. split; [exact (same_env_trans _ _ _ He He')|].
  intros p. destruct (Hp' p) as [E|[Hd E]].
  - rewrite E. destruct (Hp p) as [E1|[Hd1 E1]]; [left; exact E1|right; auto].
  - right. auto.
Qed.

Lemma deleteOldLog_fn_shrinks path info err s :
  exists r s', deleteOldLog_fn path info err s = Done r s' /\
    shrunk (fun p => exists i, info = Some i /\ p = path /\ IsDir i = false /\
              strings_HasPrefix (filepath_Base p) (filepath_Base (FilePath (hd s))) = true)
           s s'.
Proof.
  unfold deleteOldLog_fn, recover, deleteOldLog_body.
  destruct info as [i|].
  2:{ do 2 eexists. split; [reflexivity|]. apply shrunk_refl. }
  unfold bind, get_handler, time_Now, ret.
  destruct (IsDir i) eqn:Hd; cbn [negb andb].
  { do 2 eexists. split; [reflexivity|]. apply shrunk_refl. }
  destruct (ModTime i <? _).
  2:{ do 2 eexists. split; [reflexivity|]. apply shrunk_refl. }
  destruct (strings_HasPrefix _ _) eqn:Hp.
  2:{ do 2 eexists. split; [reflexivity|]. apply shrunk_refl. }
  unfold os_Remove. destruct (decide (path ∈ locked (os s))).
  { do 2 eexists. split; [reflexivity|]. apply shrunk_refl. }
  destruct (fs (os s) !! path) eqn:Hf.
  2:{ do 2 eexists. split; [reflexivity|]. apply shrunk_refl. }
  do 2 eexists. split; [reflexivity|].
  split; [reflexivity|]. split; [apply same_env_set_fs|].
  intros p. cbn. destruct (decide (path = p)) as [<-|Hne].
  - right. split; [eauto|apply lookup_delete_eq].
  - left. apply lookup_delete_ne. exact Hne.
Qed.

Lemma candidate_app h l1 l2 p :
  candidate h ((l1 ++ l2)%list) p <-> candidate h l1 p \/ candidate h l2 p.
Proof. unfold candidate. setoid_rewrite elem_of_app. naive_solver. Qed.

Lemma walk_shrinks t : forall s,
  exists r s', walk deleteOldLog_fn t s = Done r s' /\
    shrunk (candidate (hd s) (entries t)) s s'.
Proof.
  induction t as [path e|path size mtime|path size mtime e
                  |path size mtime children IH] using tree_nested_ind;
    intros s; cbn [walk entries].
  - destruct (deleteOldLog_fn_shrinks path None (Some e) s) as (r & s' & Hrun & Hs).
    exists r, s'. split; [exact Hrun|].
    eapply shrunk_weaken; [|exact Hs]. intros p (i & Hi & _). discriminate Hi.
  - destruct (deleteOldLog_fn_shrinks path (Some (mkFileInfo size mtime false)) None s)
      as (r & s' & Hrun & Hs).
    exists r, s'. split; [exact Hrun|].
    eapply shrunk_weaken; [|exact Hs].
    intros p (i & [= <-] & -> & Hd & Hp). exists (mkFileInfo size mtime false).
    split; [apply list_elem_of_singleton; reflexivity|auto].
  - exists None, s. split; [reflexivity|]. apply shrunk_refl.
  - unfold bind at 1. rewrite deleteOldLog_fn_directory.
    assert (exists r s',
      (fix each (l : list tree) : M (option error) :=
         match l with
         | [] => ret None
         | c :: l' =>
             let! err := walk deleteOldLog_fn c in
             match err with
             | Some e =>
                 if skippable c && bool_decide (e = SkipDir)
                 then each l' else ret (Some e)
             | None => each l'
             end
         end) children s = Done r s' /\
      shrunk (candidate (hd s) (flat_map entries children)) s s')
      as (r & s' & Hrun & Hs).
    { clear path size mtime. revert s.
      induction IH as [|c l Hchild _ IHl]; intros s.
      - exists None, s. split; [reflexivity|]. apply shrunk_refl.
      - destruct (Hchild s) as (r1 & s1 & Hrun1 & Hs1).
        destruct (IHl s1) as (r2 & s2 & Hrun2 & Hs2).
        assert (Hh : hd s1 = hd s) by (destruct Hs1 as [E _]; exact E).
        rewrite Hh in Hs2.
        assert (Hgo : shrunk (candidate (hd s) (flat_map entries (c :: l))) s s2).
        { eapply shrunk_weaken; [|exact (shrunk_trans _ _ _ _ _ Hs1 Hs2)].
          intros p. cbn [flat_map]. rewrite candidate_app. tauto. }
        assert (Hstop : shrunk (candidate (hd s) (flat_map entries (c :: l))) s s1).
        { eapply shrunk_weaken; [|exact Hs1].
          intros p. cbn [flat_map]. rewrite candidate_app. tauto. }
        unfold bind at 1. rewrite Hrun1.
        destruct r1 as [e|].
        + destruct (skippable c && bool_decide (e = SkipDir)).
          * exists r2, s2. split; [exact Hrun2|exact Hgo].
          * exists (Some e), s1. split; [reflexivity|exact Hstop].
        + exists r2, s2. split; [exact Hrun2|exact Hgo]. }
    exists r, s'. split; [exact Hrun|].
    eapply shrunk_weaken; [|exact Hs].
    intros p (i & Hi & Hd & Hp). exists i. split; [right; exact Hi|auto].
Qed.

(** X10: whatever fails during the walk, [deleteOldLog] returns, leaves
    the handler and the error stream alone, and every path either keeps
    its file or has lost it and is an entry that is not a directory and
    whose base name starts with the base name of the live file. *)
Theorem sweep_is_safe dir s :
  exists s', deleteOldLog dir s = Done tt s' /\
    hd s' = hd s /\
    stderr (os s') = stderr (os s) /\
    forall p,
      fs (os s') !! p = fs (os s) !! p \/
      (fs (os s') !! p = None /\
       exists i, (p, i) ∈ entries dir /\ IsDir i = false /\
         strings_HasPrefix (filepath_Base p) (filepath_Base (FilePath (hd s))) = true).
Proof.
  destruct (walk_shrinks dir s) as (r & s' & Hrun & Hh & He & Hp).
  exists s'. split.
  - unfold deleteOldLog, filepath_Walk, bind. rewrite Hrun.
    destruct r as [[]|]; reflexivity.
  - split; [exact Hh|]. split; [destruct He as (_ & E & _); exact E|].
    intros p. destruct (Hp p) as [E|[Hc E]]; [left; exact E|right; auto].
Qed.

Lemma doomed_dec h t l p : doomed h t l p \/ ~ doomed h t l p.
Proof.
  induction l as [|[q i] l IH].
  - right. rewrite doomed_nil. tauto.
  - change ((q, i) :: l) with (([(q, i)] ++ l)%list).
    rewrite doomed_app, doomed_singleton.
    destruct (decide (p = q)) as [->|Hne];
      destruct (expired h t q i); destruct IH; intuition congruence.
Qed.

(** X11: after a sweep over a walk without failures, a second sweep at
    the same time over what the walk then finds changes nothing: the
    second listing holds, of the entries that are not directories, only
    entries of the first listing whose file is still there. *)
Theorem sweep_is_idempotent dir dir' s :
  complete dir = true -> complete dir' = true -> locked (os s) = ∅ ->
  (forall p i, (p, i) ∈ entries dir' -> IsDir i = false ->
     (p, i) ∈ entries dir /\
     fs (os (state_of (deleteOldLog dir s))) !! p <> None) ->
  exists s' s'',
    deleteOldLog dir s = Done tt s' /\
    deleteOldLog dir' s' = Done tt s'' /\
    fs (os s'') = fs (os s').
Proof.
  intros Hc Hc' Hl Hleft.
  destruct (deleteOldLog_sweeps dir s Hc Hl) as (s' & Hrun & Hs).
  rewrite Hrun in Hleft. cbn [state_of] in Hleft.
  assert (Hl' : locked (os s') = ∅) by (destruct Hs as (_ & _ & E & _); congruence).
  destruct (deleteOldLog_sweeps dir' s' Hc' Hl') as (s'' & Hrun' & Hs').
  exists s', s''. split; [exact Hrun|]. split; [exact Hrun'|].
  destruct Hs as (Hh & Hn & _ & Hdel & _ & _).
  destruct Hs' as (_ & _ & _ & _ & Hkeep' & _).
  rewrite Hh, Hn in Hkeep'.
  apply map_eq. intros p. apply Hkeep'.
  intros (i & Hi & He).
  assert (Hd : IsDir i = false).
  { unfold expired in He. destruct (IsDir i); [discriminate He|reflexivity]. }
  destruct (Hleft p i Hi Hd) as (Hin & Hthere).
  apply Hthere, Hdel. exists i. split; [exact Hin|exact He].
Qed.

(** ** Names *)

Lemma append_cancel s a b : s +:+ a = s +:+ b -> a = b.
Proof. induction s as [|c s IH]; cbn; [auto|]. intros [= H]. auto. Qed.

Lemma fmt_03d_value n : 1 <= n <= 999 -> decimal_value 0 (fmt_03d n) = n.
Proof.
  intros Hn.
  assert (H : forallb (fun k => decimal_value 0 (fmt_03d (Z.of_nat k)) =? Z.of_nat k)
                (seq 1 999) = true) by (vm_compute; reflexivity).
  rewrite forallb_forall in H.
  specialize (H (Z.to_nat n)). rewrite Z2Nat.id in H by lia.
  apply Z.eqb_eq, H, in_seq. lia.
Qed.

(** X12: two different sequence numbers between 1 and 999 give two
    different rotated names. *)
Theorem rotated_names_are_distinct s n m :
  1 <= n <= 999 -> 1 <= m <= 999 -> n <> m ->
  rotated_name s n <> rotated_name s m.
Proof.
  intros Hn Hm Hne E. apply Hne. unfold rotated_name in E.
  do 4 apply append_cancel in E.
  rewrite <- (fmt_03d_value n Hn), <- (fmt_03d_value m Hm), E. reflexivity.
Qed.

(** ** log.go *)

Lemma GetLogger_cached lib name mode m w l m' w' :
  GetLogger lib name mode m w = Returned l m' w' ->
  loggers m' !! name = Some l /\
  forall mode2 w2, GetLogger lib name mode2 m' w2 = Returned l m' w2.
Proof.
  unfold GetLogger. intros H.
  assert (Hl' : loggers m' !! name = Some l).
  { destruct (loggers m !! name) as [l0|] eqn:Hl.
    - injection H as <- <- <-. exact Hl.
    - destruct (New lib name _ mode w) as [logger s|e s]; [|discriminate H].
      injection H as <- <- <-. cbn. apply lookup_insert_eq. }
  split; [exact Hl'|]. intros mode2 w2. rewrite Hl'. reflexivity.
Qed.

(** X13: once [GetLogger] has returned a logger for a name, the
    registry holds it under that name, and every later call for the name
    returns the same logger without touching registry or world, whatever
    mode it asks for. *)
Theorem GetLogger_returns_the_cached_logger lib name mode m w :
  match GetLogger lib name mode m w with
  | Returned l m' w' =>
      loggers m' !! name = Some l /\
      forall mode2 w2, GetLogger lib name mode2 m' w2 = Returned l m' w2
  | Aborted _ _ _ => True
  end.
Proof.
  destruct (GetLogger lib name mode m w) as [l m' w'|e m' w'] eqn:E; [|exact I].
  exact (GetLogger_cached _ _ _ _ _ _ _ _ E).
Qed.

(** X14: for a name the registry does not hold, [GetLogger] makes the
    handler of the mode on the path joined from the base directory and
    the lower-cased name with the suffix .log, initialises it, and
    stores the logger under the name as given; the logger's own
    [FilePath] stays empty; if the initialisation panics the registry is
    unchanged. *)
Theorem GetLogger_creates lib name mode m w :
  loggers m !! name = None ->
  match GetLogger lib name mode m w with
  | Returned l m' w' =>
      Name l = name /\ HandleMode l = mode /\ Vlogger_FilePath l = EmptyString /\
      Logger_prefix l = strings_ToUpper lib name +:+ ":" /\
      config (Logger_out l)
        = config (handler_of_mode
                    (filepath_Join lib (baseDir m) (strings_ToLower lib name +:+ ".log"))
                    mode) /\
      opened (mkState (handler_of_mode
                         (filepath_Join lib (baseDir m)
                            (strings_ToLower lib name +:+ ".log")) mode) w)
             (mkState (Logger_out l) w') /\
      baseDir m' = baseDir m /\
      loggers m' = <[name := l]> (loggers m)
  | Aborted e m' w' => m' = m
  end.
Proof.
  intros Hl. unfold GetLogger, New. rewrite Hl.
  set (fp := filepath_Join lib (baseDir m) (strings_ToLower lib name +:+ ".log")).
  pose proof (Init_cases (mkState (handler_of_mode fp mode) w)) as HI.
  pose proof (keeps_config_Init (mkState (handler_of_mode fp mode) w)) as HC.
  destruct (Init (mkState (handler_of_mode fp mode) w)) as [u [h1 w1]|e s1];
    [|reflexivity].
  cbn. cbn in HC. destruct HI as [_ HI]. auto 10.
Qed.

(** What [GetLogger] stores for a name it did not hold. *)
Lemma GetLogger_new_entry lib name mode m w l m' w' :
  loggers m !! name = None ->
  GetLogger lib name mode m w = Returned l m' w' ->
  FilePath (Logger_out l)
    = filepath_Join lib (baseDir m) (strings_ToLower lib name +:+ ".log") /\
  baseDir m' = baseDir m /\
  loggers m' = <[name := l]> (loggers m).
Proof.
  intros Hl. unfold GetLogger, New. rewrite Hl.
  set (fp := filepath_Join lib (baseDir m) (strings_ToLower lib name +:+ ".log")).
  pose proof (keeps_config_Init (mkState (handler_of_mode fp mode) w)) as HC.
  destruct (Init (mkState (handler_of_mode fp mode) w)) as [u [h1 w1]|e s1];
    [|discriminate].
  intros [= <- <- <-]. cbn. cbn in HC. split; [|split; reflexivity].
  unfold config in HC. injection HC as -> _ _ _ _.
  unfold handler_of_mode. repeat case_match; reflexivity.
Qed.

Lemma case_variants_share_a_file lib n1 n2 mode1 mode2 m w l1 m1 w1 l2 m2 w2 :
  n1 <> n2 ->
  strings_ToLower lib n1 = strings_ToLower lib n2 ->
  loggers m !! n1 = None -> loggers m !! n2 = None ->
  GetLogger lib n1 mode1 m w = Returned l1 m1 w1 ->
  GetLogger lib n2 mode2 m1 w1 = Returned l2 m2 w2 ->
  FilePath (Logger_out l1) = FilePath (Logger_out l2) /\
  loggers m2 !! n1 = Some l1 /\ loggers m2 !! n2 = Some l2.
Proof.
  intros Hne Hlow H1 H2 G1 G2.
  destruct (GetLogger_new_entry _ _ _ _ _ _ _ _ H1 G1) as (E1 & Hb1 & Hm1).
  assert (H2' : loggers m1 !! n2 = None).
  { rewrite Hm1, lookup_insert_ne by exact Hne. exact H2. }
  destruct (GetLogger_new_entry _ _ _ _ _ _ _ _ H2' G2) as (E2 & Hb2 & Hm2).
  split.
  - rewrite E1, E2, Hb1, Hlow. reflexivity.
  - rewrite Hm2, Hm1. split.
    + rewrite lookup_insert_ne by congruence. apply lookup_insert_eq.
    + apply lookup_insert_eq.
Qed.

(** X15: two names that differ but have the same lower-case form get
    two loggers, each stored under its own name, whose handlers write to
    the same path. *)
Theorem names_differing_in_case_share_a_file lib n1 n2 mode1 mode2 m w :
  n1 <> n2 ->
  strings_ToLower lib n1 = strings_ToLower lib n2 ->
  loggers m !! n1 = None -> loggers m !! n2 = None ->
  match GetLogger lib n1 mode1 m w with
  | Returned l1 m1 w1 =>
      match GetLogger lib n2 mode2 m1 w1 with
      | Returned l2 m2 w2 =>
          FilePath (Logger_out l1) = FilePath (Logger_out l2) /\
          loggers m2 !! n1 = Some l1 /\ loggers m2 !! n2 = Some l2
      | Aborted _ _ _ => True
      end
  | Aborted _ _ _ => True
  end.
Proof.
  intros Hne Hlow H1 H2.
  destruct (GetLogger lib n1 mode1 m w) as [l1 m1 w1|] eqn:G1; [|exact I].
  destruct (GetLogger lib n2 mode2 m1 w1) as [l2 m2 w2|] eqn:G2; [|exact I].
  exact (case_variants_share_a_file _ _ _ _ _ _ _ _ _ _ _ _ _ Hne Hlow H1 H2 G1 G2).
Qed.

(** X16: [SetLogDir] returns exactly when something exists at the
    path, and then only replaces the base directory, the loggers already
    made staying as they are; otherwise it prints one line to the error
    stream and panics with the registry unchanged. *)
Theorem SetLogDir_needs_the_directory lib logDir m w :
  match SetLogDir lib logDir m w with
  | Returned _ m' w' =>
      fs w !! logDir <> None /\ baseDir m' = logDir /\ loggers m' = loggers m /\ w' = w
  | Aborted _ m' w' =>
      fs w !! logDir = None /\ m' = m /\ fs w' = fs w /\
      length (stderr w') = S (length (stderr w))
  end.
Proof.
  unfold SetLogDir, os_Stat. destruct (fs w !! logDir) as [f|].
  - cbn. auto.
  - cbn. rewrite length_app. cbn. repeat split; auto. lia.
Qed.

(** X17: a mode outside 1 to 5 gives a handler that never attempts
    rotation. *)
Theorem unknown_modes_never_rotate fp mode s size :
  mode < 1 \/ 5 < mode ->
  reachable (handler_of_mode fp mode) s ->
  doCheckRotate size s = count_write size s.
Proof.
  intros Hmode Hr. apply reachable_config in Hr.
  assert (E : handler_of_mode fp mode = NewDefaultHandler fp).
  { unfold handler_of_mode, RotateModeNoRotate, RotateModeWeek, RotateModeMonth,
      RotateMode16M, RotateMode256M, RotateModeMillion.
    repeat case_match; try reflexivity; lia. }
  rewrite E in Hr. unfold config in Hr. cbn in Hr. injection Hr as _ _ _ _ HR.
  apply rotate_due_false. unfold rotate_due. rewrite HR. reflexivity.
Qed.

(** X18: [Error] is two writes.  On a line-count handler that is one
    line below its threshold (same day, nothing failing, a rotated name
    free) the marker line is appended to the old file, which is then
    rotated, and the message line is alone in the new live file. *)
Theorem Error_is_split_by_a_rotation lib l shown s f :
  let marker := Logger_buffer lib l (now (os s)) (" >>>Error" +:+ newline) in
  let message := Logger_buffer lib l (now (os s)) shown in
  Rotatable (hd s) = true -> MaxSize (hd s) = 0 ->
  0 < MaxLines (hd s) < 2 ^ 63 ->
  curLines (hd s) = MaxLines (hd s) - 1 ->
  openDate (hd s) = Day (now (os s)) ->
  FilePath (hd s) <> EmptyString ->
  logFile (hd s) = Some (mkFile (FilePath (hd s)) false) ->
  fs (os s) !! FilePath (hd s) = Some f ->
  isDir f = false ->
  curSize (hd s) = len (content f) ->
  calm (os s) ->
  (exists n, 1 <= n <= 999 /\ fs (os s) !! rotated_name s n = None) ->
  len (content f) + len marker + len message < 2 ^ 63 ->
  exists s' n old new,
    Vlogger_Error lib l shown s = Done tt s' /\
    1 <= n <= 999 /\
    fs (os s') !! rotated_name s n = Some old /\
    content old = content f +:+ marker /\
    fs (os s') !! FilePath (hd s) = Some new /\
    content new = message /\
    curLines (hd s') = 1.
Proof.
  intros marker message HR HS HN Hlines Hday Hpath Hlog Hf Hd Hsz Hcalm Hfree Hfit.
  assert (Hdue : rotate_due (hd s) (now (os s)) = false).
  { unfold rotate_due. rewrite HR, HS, Hlines, Hday, Z.eqb_refl. cbn.
    replace (MaxLines (hd s) <=? MaxLines (hd s) - 1) with false
      by (symmetry; apply Z.leb_gt; lia).
    rewrite andb_false_r. reflexivity. }
  pose proof (len_nonneg marker). pose proof (len_nonneg message).
  pose proof (len_nonneg (content f)).
  destruct (Write_leaves_written marker s f Hpath Hlog Hf Hd Hsz Hcalm)
    as (s1 & Hw1 & Hwr1); [rewrite Hdue; discriminate|lia|].
  unfold written in Hwr1. rewrite Hdue in Hwr1. cbv zeta in Hwr1.
  destruct Hwr1 as (Hcfg1 & Hlog1 & (f1 & Hf1 & Hd1 & Hc1 & Hsz1) & Hln1 & Hod1
                    & Hother1 & Hcalm1 & Hnow1 & _).
  unfold config in Hcfg1. injection Hcfg1 as Ep El Es _ Er.
  assert (Hname : forall n, rotated_name s1 n = rotated_name s n).
  { intros n. unfold rotated_name. rewrite Ep, Hnow1. reflexivity. }
  assert (Hdue1 : rotate_due (hd s1) (now (os s1)) = true).
  { unfold rotate_due. rewrite Er, El, Es, HR, HS, Hln1, Hlines.
    replace (MaxLines (hd s) - 1 + 1) with (MaxLines (hd s)) by lia.
    rewrite wrap64_small by lia.
    replace (0 <? MaxLines (hd s)) with true by (symmetry; apply Z.ltb_lt; lia).
    rewrite Z.leb_refl. reflexivity. }
  destruct (Write_leaves_written message s1 f1) as (s2 & Hw2 & Hwr2);
    try (rewrite ?Ep; assumption).
  { intros _. destruct Hfree as (n & Hn & Hfr). exists n. split; [exact Hn|].
    rewrite Hname, Hother1; [exact Hfr|]. apply rotated_name_fresh. }
  { rewrite Hc1, len_append. lia. }
  unfold written in Hwr2. rewrite Hdue1 in Hwr2. cbv zeta in Hwr2.
  destruct Hwr2 as (_ & _ & (f2 & Hf2 & _ & Hc2 & _) & Hln2 & _
                    & (n & Hn & Hold) & _).
  exists s2, n, f1, f2.
  split.
  { unfold Vlogger_Error, Logger_Output, bind at 1. unfold bind at 1, time_Now.
    unfold bind at 1. fold marker. rewrite Hw1.
    unfold ret at 1. unfold bind at 1. unfold bind at 1.
    rewrite Hnow1. fold message. unfold bind at 1. rewrite Hw2. reflexivity. }
  split; [exact Hn|]. rewrite Hname in Hold. rewrite Ep in Hf2.
  split; [exact Hold|]. split; [exact Hc1|]. split; [exact Hf2|].
  split; [exact Hc2|exact Hln2].
Qed.

(** ** Inputs for evaluation *)

Lemma disk_nearly_full_reachable :
  reachable (NewDefaultHandler "logs/app.log") disk_nearly_full.
Proof.
  unfold disk_nearly_full.
  apply (reach_env _ (state_of (Init _))). apply reach_Init. apply reach_start.
Qed.

Lemma DoRotate_succeeds_witness :
  exists s' n, DoRotate past_threshold = Done None s' /\ 1 <= n <= 999 /\
    fs (os s') !! rotated_name past_threshold n
      = Some (regular "helloworld!" 1704412800) /\
    fs (os s') !! FilePath (hd past_threshold)
      = Some (mkfile EmptyString (Unix (now (os past_threshold))) false) /\
    logFile (hd s') = Some (mkFile (FilePath (hd past_threshold)) false) /\
    FilePath (hd s') = FilePath (hd past_threshold) /\
    curSize (hd s') = 0 /\ curLines (hd s') = 0 /\
    openDate (hd s') = Day (now (os past_threshold)) /\
    sweeps (os s') = S (sweeps (os past_threshold)) /\
    stderr (os s') = stderr (os past_threshold) /\
    now (os s') = now (os past_threshold) /\
    calm (os s').
Proof.
  apply (DoRotate_succeeds past_threshold (regular "helloworld!" 1704412800)).
  - vm_compute. discriminate.
  - reflexivity.
  - vm_compute. repeat split; reflexivity.
  - exists 1. split; [lia|reflexivity].
Defined.

Lemma Write_appends_and_counts_witness :
  exists s', Write "x" past_threshold = Done (len "x", None) s' /\
    written "x" (regular "helloworld!" 1704412800) past_threshold s'.
Proof.
  apply (Write_appends_and_counts "x" past_threshold
           (regular "helloworld!" 1704412800)).
  - vm_compute. discriminate.
  - reflexivity.
  - reflexivity.
  - reflexivity.
  - reflexivity.
  - vm_compute. repeat split; reflexivity.
  - intros _. exists 1. split; [lia|reflexivity].
  - vm_compute. reflexivity.
Defined.

Lemma Write_survives_name_exhaustion_witness :
  exists s' line,
    Write "x" names_exhausted = Done (len "x", None) s' /\
    fs (os s') !! FilePath (hd names_exhausted)
      = Some (mkfile ("0123456789" +:+ "x") (Unix (now (os names_exhausted))) false) /\
    (forall p, p <> FilePath (hd names_exhausted) ->
               fs (os s') !! p = fs (os names_exhausted) !! p) /\
    logFile (hd s') = Some (mkFile (FilePath (hd names_exhausted)) false) /\
    stderr (os s') = (stderr (os names_exhausted) ++ [line])%list /\
    sweeps (os s') = sweeps (os names_exhausted).
Proof.
  apply (Write_survives_name_exhaustion "x" names_exhausted
           (regular "0123456789" 1704412800)).
  - vm_compute. reflexivity.
  - vm_compute. reflexivity.
  - vm_compute. reflexivity.
  - vm_compute. reflexivity.
  - vm_compute. reflexivity.
  - exact crowded_is_full.
Defined.

Lemma lines_mode_rotation_condition_witness :
  doCheckRotate 1 restart_on_two_lines =
  (if (1000 <=? curLines (hd restart_on_two_lines))
      || negb (Day (now (os restart_on_two_lines))
               =? openDate (hd restart_on_two_lines))
   then rotate_then_count 1 restart_on_two_lines
   else count_write 1 restart_on_two_lines).
Proof.
  apply (lines_mode_rotation_condition "logs/app.log" 1000 restart_on_two_lines 1).
  - lia.
  - apply reach_start.
Defined.

Lemma daily_mode_rotation_condition_witness :
  doCheckRotate 1 monthly_handler =
  (if Day (now (os monthly_handler)) =? openDate (hd monthly_handler)
   then count_write 1 monthly_handler
   else rotate_then_count 1 monthly_handler).
Proof.
  apply (daily_mode_rotation_condition "logs/app.log" 30 monthly_handler 1).
  apply reach_start.
Defined.

Lemma configuration_is_fixed_witness :
  FilePath (hd rotated_twice) = FilePath (NewSizeRotateHandler "logs/app.log" 4) /\
  MaxLines (hd rotated_twice) = MaxLines (NewSizeRotateHandler "logs/app.log" 4) /\
  MaxSize (hd rotated_twice) = MaxSize (NewSizeRotateHandler "logs/app.log" 4) /\
  MaxDays (hd rotated_twice) = MaxDays (NewSizeRotateHandler "logs/app.log" 4) /\
  Rotatable (hd rotated_twice) = Rotatable (NewSizeRotateHandler "logs/app.log" 4).
Proof.
  apply (configuration_is_fixed (NewSizeRotateHandler "logs/app.log" 4) rotated_twice).
  exact rotated_twice_reachable.
Defined.

Lemma default_handler_only_appends_witness :
  exists err s', Write "hello" disk_nearly_full = Done (len "hello", err) s' /\
    sweeps (os s') = sweeps (os disk_nearly_full) /\
    stderr (os s') = stderr (os disk_nearly_full) /\
    (forall p, is_Some (fs (os s') !! p) <-> is_Some (fs (os disk_nearly_full) !! p)).
Proof.
  apply (default_handler_only_appends "logs/app.log" disk_nearly_full "hello").
  exact disk_nearly_full_reachable.
Defined.

Lemma Init_reopens_without_touching_files_witness :
  exists s', Init restart_on_two_lines = Done tt s' /\
    fs (os s') = fs (os restart_on_two_lines) /\
    logFile (hd s') = Some (mkFile (FilePath (hd restart_on_two_lines)) false) /\
    curSize (hd s') = len (content (regular two_lines 1704412800)) /\
    curLines (hd s') =
      match content (regular two_lines 1704412800) with
      | EmptyString => 0
      | _ => Z.of_nat (count_newlines (content (regular two_lines 1704412800))) + 1
      end /\
    openDate (hd s') = Day (now (os restart_on_two_lines)).
Proof.
  apply (Init_reopens_without_touching_files restart_on_two_lines
           (regular two_lines 1704412800)).
  - vm_compute. discriminate.
  - reflexivity.
  - reflexivity.
  - reflexivity.
  - reflexivity.
  - reflexivity.
Defined.

Lemma Write_after_Close_fails_witness :
  exists s', Write "hello" (state_of (Close disk_nearly_full))
             = Done (len "hello",
                     Some (PathError "write" (file_name (mkFile "logs/app.log" false))
                             ErrClosed)) s' /\
    fs (os s') = fs (os disk_nearly_full) /\
    logFile (hd s') = Some (mkFile (file_name (mkFile "logs/app.log" false)) true).
Proof.
  apply (Write_after_Close_fails "hello" disk_nearly_full (mkFile "logs/app.log" false)).
  - reflexivity.
  - reflexivity.
Defined.

Lemma sweep_is_idempotent_witness :
  exists s' s'',
    deleteOldLog log_directory monthly_handler = Done tt s' /\
    deleteOldLog log_directory_swept s' = Done tt s'' /\
    fs (os s'') = fs (os s').
Proof.
  apply (sweep_is_idempotent log_directory log_directory_swept monthly_handler).
  - reflexivity.
  - reflexivity.
  - reflexivity.
  - intros p i Hin Hd. revert Hd. revert p i Hin.
    assert (H : Forall (fun e : string * FileInfo =>
                  IsDir (snd e) = false ->
                  e ∈ entries log_directory /\
                  fs (os (state_of (deleteOldLog log_directory monthly_handler)))
                    !! fst e <> None)
                (entries log_directory_swept)).
    { cbn [entries log_directory_swept flat_map app].
      repeat apply Forall_cons_2; try apply Forall_nil_2;
        cbn [fst snd IsDir]; intros Hd; try discriminate Hd;
        (split; [cbn; repeat first [apply list_elem_of_here | apply list_elem_of_further]
                |vm_compute; discriminate]). }
    intros p i Hin. rewrite Forall_forall in H. exact (H (p, i) Hin).
Defined.

(** Evaluated: the first sweep removes the two old files under the
    prefix, the second finds the four that are left and keeps them. *)
Example sweep_twice_evaluated :
  let s' := state_of (deleteOldLog log_directory monthly_handler) in
  let s'' := state_of (deleteOldLog log_directory_swept s') in
  map fst (map_to_list (fs (os s'')))
    ≡ₚ [ "logs/app.log"; "logs/app.log.2024-01-04.001";
         "logs/app.log.2023-12-26.001"; "logs/other.log" ].
Proof. vm_compute. by apply (bool_decide_unpack _). Qed.

Lemma rotated_names_are_distinct_witness :
  rotated_name past_threshold 1 <> rotated_name past_threshold 2.
Proof.
  apply (rotated_names_are_distinct past_threshold 1 2).
  - lia.
  - lia.
  - lia.
Defined.

Lemma GetLogger_creates_witness :
  match GetLogger plain_library "App" RotateMode16M registry_in_logs (quiet ∅ day5) with
  | Returned l m' w' =>
      Name l = "App" /\ HandleMode l = RotateMode16M /\
      Vlogger_FilePath l = EmptyString /\
      Logger_prefix l = strings_ToUpper plain_library "App" +:+ ":" /\
      config (Logger_out l)
        = config (handler_of_mode
                    (filepath_Join plain_library (baseDir registry_in_logs)
                       (strings_ToLower plain_library "App" +:+ ".log"))
                    RotateMode16M) /\
      opened (mkState (handler_of_mode
                         (filepath_Join plain_library (baseDir registry_in_logs)
                            (strings_ToLower plain_library "App" +:+ ".log"))
                         RotateMode16M) (quiet ∅ day5))
             (mkState (Logger_out l) w') /\
      baseDir m' = baseDir registry_in_logs /\
      loggers m' = <["App" := l]> (loggers registry_in_logs)
  | Aborted e m' w' => m' = registry_in_logs
  end.
Proof.
  apply (GetLogger_creates plain_library "App" RotateMode16M registry_in_logs
           (quiet ∅ day5)).
  reflexivity.
Defined.

Lemma names_differing_in_case_share_a_file_witness :
  match GetLogger plain_library "App" RotateMode16M registry_in_logs (quiet ∅ day5) with
  | Returned l1 m1 w1 =>
      match GetLogger plain_library "app" RotateModeMillion m1 w1 with
      | Returned l2 m2 w2 =>
          FilePath (Logger_out l1) = FilePath (Logger_out l2) /\
          loggers m2 !! "App" = Some l1 /\ loggers m2 !! "app" = Some l2
      | Aborted _ _ _ => True
      end
  | Aborted _ _ _ => True
  end.
Proof.
  apply (names_differing_in_case_share_a_file plain_library "App" "app"
           RotateMode16M RotateModeMillion registry_in_logs (quiet ∅ day5)).
  - discriminate.
  - reflexivity.
  - reflexivity.
  - reflexivity.
Defined.

(** Evaluated: both calls return, on the one file logs/app.log, each
    logger with the thresholds of its own mode. *)
Example case_variants_evaluated :
  match GetLogger plain_library "App" RotateMode16M registry_in_logs (quiet ∅ day5) with
  | Returned l1 m1 w1 =>
      match GetLogger plain_library "app" RotateModeMillion m1 w1 with
      | Returned l2 m2 w2 =>
          (FilePath (Logger_out l1), MaxSize (Logger_out l1), MaxLines (Logger_out l1))
            = ("logs/app.log", 16777216, 0) /\
          (FilePath (Logger_out l2), MaxSize (Logger_out l2), MaxLines (Logger_out l2))
            = ("logs/app.log", 0, 1000000) /\
          map fst (map_to_list (fs w2)) = ["logs/app.log"]
      | Aborted _ _ _ => False
      end
  | Aborted _ _ _ => False
  end.
Proof. vm_compute. repeat split; reflexivity. Qed.

Lemma unknown_modes_never_rotate_witness :
  doCheckRotate 1 (mkState (handler_of_mode "logs/app.log" 9) (quiet ∅ day5))
  = count_write 1 (mkState (handler_of_mode "logs/app.log" 9) (quiet ∅ day5)).
Proof.
  apply (unknown_modes_never_rotate "logs/app.log" 9).
  - right. lia.
  - apply reach_start.
Defined.

Lemma Error_is_split_by_a_rotation_witness :
  let s := one_line_before_threshold in
  let marker := Logger_buffer plain_library app_logger (now (os s))
                  (" >>>Error" +:+ newline) in
  let message := Logger_buffer plain_library app_logger (now (os s))
                   ("[disk full]" +:+ newline) in
  exists s' n old new,
    Vlogger_Error plain_library app_logger ("[disk full]" +:+ newline) s = Done tt s' /\
    1 <= n <= 999 /\
    fs (os s') !! rotated_name s n = Some old /\
    content old = content (regular ("first" +:+ newline) 1704412800) +:+ marker /\
    fs (os s') !! FilePath (hd s) = Some new /\
    content new = message /\
    curLines (hd s') = 1.
Proof.
  apply (Error_is_split_by_a_rotation plain_library app_logger
           ("[disk full]" +:+ newline) one_line_before_threshold
           (regular ("first" +:+ newline) 1704412800)).
  - reflexivity.
  - reflexivity.
  - vm_compute. split; reflexivity.
  - reflexivity.
  - reflexivity.
  - vm_compute. discriminate.
  - reflexivity.
  - reflexivity.
  - reflexivity.
  - reflexivity.
  - vm_compute. repeat split; reflexivity.
  - exists 1. split; [lia|reflexivity].
  - vm_compute. reflexivity.
Defined.

(** Evaluated: the marker ends the rotated file and the message starts
    the new one. *)
Example Error_split_evaluated :
  let s' := state_of (Vlogger_Error plain_library app_logger
                        ("[disk full]" +:+ newline) one_line_before_threshold) in
  content <$> fs (os s') !! "logs/app.log.2024-01-05.001"
    = Some ("first" +:+ newline +:+ "APP: >>>Error" +:+ newline) /\
  content <$> fs (os s') !! "logs/app.log"
    = Some ("APP:[disk full]" +:+ newline).
Proof. vm_compute. split; reflexivity. Qed.

(** ** Writes without a live file or without [Init] *)

(** Without a file at the live path the check only counts: a rotation
    that is due finds nothing to rename and returns. *)
Lemma doCheckRotate_without_live_file size s :
  fs (os s) !! FilePath (hd s) = None ->
  exists h, doCheckRotate size s = Done tt (mkState h (os s)) /\
    logFile h = logFile (hd s) /\ FilePath h = FilePath (hd s).
Proof.
  intros Hf.
  assert (Hcount : exists h, count_write size s = Done tt (mkState h (os s)) /\
            logFile h = logFile (hd s) /\ FilePath h = FilePath (hd s)).
  { eexists. split; [reflexivity|]. split; reflexivity. }
  destruct (rotate_due (hd s) (now (os s))) eqn:Hdue.
  - rewrite (rotate_due_true _ _ Hdue). unfold rotate_then_count, bind at 1.
    rewrite (try_rotate_succeeds _ _ (DoRotate_without_live_file s Hf)).
    exact Hcount.
  - rewrite (rotate_due_false _ _ Hdue). exact Hcount.
Qed.

(** X19: when nothing is at the live path (never created, or removed
    by a sweep or by someone else), [Write] returns with the length of
    the payload, and nothing is at the live path afterwards: it does not
    reopen, starts no sweep and prints nothing, even when a rotation is
    due.  Without a descriptor the error is the invalid-argument error
    of a nil file. *)
Theorem Write_never_creates_the_file data s :
  fs (os s) !! FilePath (hd s) = None ->
  exists err s', Write data s = Done (len data, err) s' /\
    fs (os s') !! FilePath (hd s) = None /\
    logFile (hd s') = logFile (hd s) /\
    stderr (os s') = stderr (os s) /\
    sweeps (os s') = sweeps (os s) /\
    (logFile (hd s) = None -> err = Some (OsError ErrInvalid)).
Proof.
  intros Hf. rewrite Write_unfold.
  assert (Hsteps : forall t, hd t = hd s -> fs (os t) = fs (os s) ->
            stderr (os t) = stderr (os s) -> sweeps (os t) = sweeps (os s) ->
            exists err s',
              match doCheckRotate (len data) t with
              | Done _ s2 =>
                  match MuxWriter_Write data s2 with
                  | Done (_, err) s3 => Done (len data, err) s3
                  | Panicked e s3 => Panicked e s3
                  end
              | Panicked e s2 => Panicked e s2
              end = Done (len data, err) s' /\
              fs (os s') !! FilePath (hd s) = None /\
              logFile (hd s') = logFile (hd s) /\
              stderr (os s') = stderr (os s) /\
              sweeps (os s') = sweeps (os s) /\
              (logFile (hd s) = None -> err = Some (OsError ErrInvalid))).
  { intros t Hh Hfs Herr Hsw.
    destruct (doCheckRotate_without_live_file (len data) t) as (h & H1 & Hl & Hp).
    { rewrite Hh, Hfs. exact Hf. }
    rewrite H1, Hh in *.
    destruct (MuxWriter_Write_frame data (mkState h (os t)))
      as ([k err] & s3 & H2 & Hhd & Henv & _ & Hdom).
    exists err, s3. rewrite H2. split; [reflexivity|].
    destruct Henv as (_ & E2 & _ & _ & E5 & _).
    cbn [hd os] in Hhd, E2, E5, Hdom.
    split.
    { apply eq_None_not_Some. rewrite Hdom, Hfs, Hf. apply is_Some_None. }
    split; [rewrite Hhd; exact Hl|].
    split; [congruence|]. split; [congruence|].
    intros Hnone. unfold MuxWriter_Write, bind, get_handler, File_Write in H2.
    cbn [hd] in H2. rewrite Hl, Hnone in H2. congruence. }
  destruct (Debug (os s)).
  - apply (Hsteps (mkState (hd s) (add_stdout (data +:+ newline) (os s))));
      reflexivity.
  - apply (Hsteps s); reflexivity.
Qed.

Lemma strings_HasPrefix_refl a : strings_HasPrefix a a = true.
Proof.
  unfold strings_HasPrefix. induction a as [|c a IH]; [reflexivity|].
  cbn. destruct (ascii_dec c c) as [_|Hne]; [exact IH|congruence].
Qed.

(** X21: the live file carries its own prefix, so a sweep over a walk
    without failures removes it like any rotated file when its
    modification time is older than the retention period; the handler,
    and with it the descriptor, stays as it was. *)
Theorem sweep_does_not_spare_the_live_file dir s i :
  complete dir = true ->
  locked (os s) = ∅ ->
  - 2 ^ 63 <= 86400 * MaxDays (hd s) < 2 ^ 63 ->
  - 2 ^ 63 <= Unix (now (os s)) - 86400 * MaxDays (hd s) < 2 ^ 63 ->
  (FilePath (hd s), i) ∈ entries dir ->
  IsDir i = false ->
  ModTime i < Unix (now (os s)) - 86400 * MaxDays (hd s) ->
  exists s', deleteOldLog dir s = Done tt s' /\
    fs (os s') !! FilePath (hd s) = None /\
    hd s' = hd s.
Proof.
  intros Hc Hl Ho1 Ho2 Hi Hd Ht.
  destruct (deleteOldLog_sweeps dir s Hc Hl) as (s' & Hrun & Hs).
  exists s'. split; [exact Hrun|].
  destruct Hs as (Hhd & _ & _ & Hdel & _).
  split; [|exact Hhd].
  apply Hdel. exists i. split; [exact Hi|].
  apply expired_iff; [exact Ho1|exact Ho2|].
  split; [exact Hd|]. split; [apply strings_HasPrefix_refl|exact Ht].
Qed.

(** A write whose rotation is due and succeeds, whatever the state of
    the descriptor before. *)
Lemma rotating_steps data s f :
  FilePath (hd s) <> EmptyString ->
  fs (os s) !! FilePath (hd s) = Some f ->
  calm (os s) ->
  rotate_due (hd s) (now (os s)) = true ->
  (exists n, 1 <= n <= 999 /\ fs (os s) !! rotated_name s n = None) ->
  len data < 2 ^ 63 ->
  exists s2 s3 n,
    doCheckRotate (len data) s = Done tt s2 /\
    MuxWriter_Write data s2 = Done (len data, None) s3 /\
    1 <= n <= 999 /\
    fs (os s3) !! rotated_name s n = Some f /\
    fs (os s3) !! FilePath (hd s) = Some (mkfile data (Unix (now (os s))) false) /\
    logFile (hd s3) = Some (mkFile (FilePath (hd s)) false) /\
    curSize (hd s3) = len data /\ curLines (hd s3) = 1 /\
    openDate (hd s3) = Day (now (os s)).
Proof.
  intros Hpath Hf Hcalm Hdue Hfree Hfit.
  destruct (probe_finds_a_free_name s Hfree) as (n & Hn & Hrun).
  destruct (DoRotate_to_free_name s f n Hpath Hf Hcalm Hrun)
    as (s1 & Hrot & Hold & Hnew & Hlog1 & Hpath1 & Hsz1 & Hln1 & Hday1 & _
        & Herr1 & Hnow1 & Hcalm1).
  rewrite (rotate_due_true _ _ Hdue). unfold rotate_then_count, bind at 1.
  rewrite (try_rotate_succeeds _ _ Hrot).
  set (s2 := mkState (set_curSize (wrap64 (curSize (hd s1) + len data))
                        (set_curLines (wrap64 (curLines (hd s1) + 1)) (hd s1)))
                     (os s1)).
  assert (Hlog2 : logFile (hd s2) = Some (mkFile (FilePath (hd s2)) false)).
  { cbn. rewrite Hpath1. exact Hlog1. }
  assert (Hf2 : fs (os s2) !! FilePath (hd s2)
                = Some (mkfile EmptyString (Unix (now (os s))) false)).
  { cbn. rewrite Hpath1. exact Hnew. }
  destruct (MuxWriter_Write_open data s2 _ Hlog2 (proj2 (proj2 (proj2 (proj2 Hcalm1)))) Hf2)
    as (s3 & Hw & Hhd & Henv & Hf3 & Hother).
  exists s2, s3, n.
  split; [reflexivity|]. split; [exact Hw|]. split; [exact Hn|].
  rewrite Hhd.
  split. { rewrite Hother; [exact Hold|]. cbn. rewrite Hpath1. apply rotated_name_fresh. }
  split. { cbn in Hf3. rewrite Hpath1, Hnow1 in Hf3. exact Hf3. }
  split; [exact Hlog1|].
  split. { cbn. rewrite Hsz1. apply wrap64_small. pose proof (len_nonneg data). lia. }
  split; [cbn; rewrite Hln1; reflexivity|exact Hday1].
Qed.

(** X20: the first [Write] on a rotating handler on which [Init] was
    never called finds the recorded day 0 different from today, so it
    rotates: a file a previous run left at the live path is moved to a
    rotated name, and the payload is alone in a new live file, on which
    the descriptor is then open. *)
Theorem first_Write_without_Init_rotates data s f :
  uninitialised (hd s) ->
  1 <= Day (now (os s)) ->
  FilePath (hd s) <> EmptyString ->
  fs (os s) !! FilePath (hd s) = Some f ->
  calm (os s) ->
  (exists n, 1 <= n <= 999 /\ fs (os s) !! rotated_name s n = None) ->
  len data < 2 ^ 63 ->
  exists s' n, Write data s = Done (len data, None) s' /\
    1 <= n <= 999 /\
    fs (os s') !! rotated_name s n = Some f /\
    fs (os s') !! FilePath (hd s) = Some (mkfile data (Unix (now (os s))) false) /\
    logFile (hd s') = Some (mkFile (FilePath (hd s)) false) /\
    curSize (hd s') = len data /\ curLines (hd s') = 1 /\
    openDate (hd s') = Day (now (os s)).
Proof.
  intros (Hrot & _ & Hday) Hd Hpath Hf Hcalm Hfree Hfit.
  assert (Hdue : rotate_due (hd s) (now (os s)) = true).
  { unfold rotate_due. rewrite Hrot, Hday.
    assert (E : (Day (now (os s)) =? 0) = false) by (apply Z.eqb_neq; lia).
    rewrite E. cbn. apply orb_true_r. }
  rewrite Write_unfold.
  assert (Hsteps : forall t, hd t = hd s -> fs (os t) = fs (os s) ->
            now (os t) = now (os s) -> calm (os t) ->
            exists s' n,
              match doCheckRotate (len data) t with
              | Done _ s2 =>
                  match MuxWriter_Write data s2 with
                  | Done (_, err) s3 => Done (len data, err) s3
                  | Panicked e s3 => Panicked e s3
                  end
              | Panicked e s2 => Panicked e s2
              end = Done (len data, None) s' /\
              1 <= n <= 999 /\
              fs (os s') !! rotated_name s n = Some f /\
              fs (os s') !! FilePath (hd s)
                = Some (mkfile data (Unix (now (os s))) false) /\
              logFile (hd s') = Some (mkFile (FilePath (hd s)) false) /\
              curSize (hd s') = len data /\ curLines (hd s') = 1 /\
              openDate (hd s') = Day (now (os s))).
  { intros t Hh Hfs Hnow Hc.
    assert (Hname : forall n, rotated_name t n = rotated_name s n).
    { intros n. unfold rotated_name. rewrite Hh, Hnow. reflexivity. }
    destruct (rotating_steps data t f) as (s2 & s3 & n & H1 & H2 & H3);
      try (rewrite ?Hh, ?Hfs, ?Hnow; assumption).
    { destruct Hfree as (n & Hn & Hfr).
      exists n. split; [exact Hn|]. rewrite Hname, Hfs. exact Hfr. }
    exists s3, n. rewrite H1, H2. split; [reflexivity|].
    rewrite Hname, Hh, Hnow in H3. exact H3. }
  destruct (Debug (os s)).
  - apply (Hsteps (mkState (hd s) (add_stdout (data +:+ newline) (os s))));
      try reflexivity.
    destruct Hcalm as (?&?&?&?&?). unfold calm. cbn. auto.
  - apply (Hsteps s); try reflexivity. exact Hcalm.
Qed.

Lemma Write_never_creates_the_file_witness :
  exists err s', Write "hello" never_initialised_no_file = Done (5, err) s' /\
    fs (os s') !! "logs/app.log" = None /\
    logFile (hd s') = None /\
    stderr (os s') = [] /\
    sweeps (os s') = 0%nat /\
    (logFile (hd never_initialised_no_file) = None ->
     err = Some (OsError ErrInvalid)).
Proof.
  apply (Write_never_creates_the_file "hello" never_initialised_no_file).
  reflexivity.
Defined.

Lemma first_Write_without_Init_rotates_witness :
  exists s' n, Write "hello" never_initialised = Done (5, None) s' /\
    1 <= n <= 999 /\
    fs (os s') !! rotated_name never_initialised n = Some (regular "old" 1704326400) /\
    fs (os s') !! "logs/app.log" = Some (mkfile "hello" 1704412800 false) /\
    logFile (hd s') = Some (mkFile "logs/app.log" false) /\
    curSize (hd s') = 5 /\ curLines (hd s') = 1 /\
    openDate (hd s') = 5.
Proof.
  apply (first_Write_without_Init_rotates "hello" never_initialised
           (regular "old" 1704326400)).
  - unfold uninitialised. cbn. auto.
  - cbn. lia.
  - discriminate.
  - reflexivity.
  - apply calm_quiet.
  - exists 1. split; [lia|]. vm_compute. reflexivity.
  - vm_compute. reflexivity.
Defined.

Lemma sweep_does_not_spare_the_live_file_witness :
  exists s', deleteOldLog rotated_twice_directory rotated_twice = Done tt s' /\
    fs (os s') !! "logs/app.log" = None /\
    hd s' = hd rotated_twice.
Proof.
  apply (sweep_does_not_spare_the_live_file rotated_twice_directory rotated_twice
           (mkFileInfo 5 1704412800 false)).
  - reflexivity.
  - reflexivity.
  - vm_compute. split; [discriminate|reflexivity].
  - vm_compute. split; [discriminate|reflexivity].
  - vm_compute. apply list_elem_of_further, list_elem_of_here.
  - reflexivity.
  - vm_compute. reflexivity.
Defined.
